(** * Hdf5BaseDataProcessor

    A shallow embedding of
    [modelzoo/vision/pytorch/unet/input/Hdf5BaseDataProcessor.py]:
    the constructor [__init__], [__len__], [_worker_init_fn],
    [create_dataloader] and [_apply_normalization], together with the
    few pieces of Python's dynamic semantics they rely on (truthiness,
    [dict] access, tuple unpacking, integer arithmetic and exceptions).

    Collaborators the class imports but does not define (the [cm] runtime,
    the [utils] helpers, [torch], Python's [random] module) and the abstract
    methods left to subclasses are parameters of the development. *)

From stdpp Require Import gmap strings.
From Stdlib Require Import ZArith NArith String List Lia.

#[local] Set Warnings "-register-all".
#[local] Open Scope Z_scope.

(** ** Python values *)

(** The values that reach the class through [params].  [VSeq] stands for
    both tuples and lists; the class only tests them for emptiness and
    unpacks them. *)
Inductive PyVal : Type :=
  | VNone
  | VBool (b : bool)
  | VInt (z : Z)
  | VStr (s : string)
  | VSeq (l : list PyVal).

(** The exceptions the embedded code can raise. *)
Inductive Exn : Type :=
  | KeyError (key : string)
  | RuntimeError (msg : string)
  | TypeError
  | ValueError
  | ZeroDivisionError
  | OtherError (name : string).

(** [bool(v)], as used by [if v:], [v and w], [v or w]. *)
Definition truthy (v : PyVal) : bool :=
  match v with
  | VNone => false
  | VBool b => b
  | VInt z => negb (z =? 0)
  | VStr s => match s with EmptyString => false | String _ _ => true end
  | VSeq l => match l with [] => false | _ :: _ => true end
  end.

(** [v is None] *)
Definition is_None (v : PyVal) : bool :=
  match v with VNone => true | _ => false end.

(** [v + n] for an [int] [n]: defined on [int] and [bool] (a subclass of
    [int]), a [TypeError] on [None], [str], [list] and [tuple]. *)
Definition py_add_int (v : PyVal) (n : Z) : Exn + Z :=
  match v with
  | VInt z => inr (z + n)
  | VBool b => inr (Z.b2z b + n)
  | _ => inl TypeError
  end.

(** [v > 0] *)
Definition py_gt_0 (v : PyVal) : Exn + bool :=
  match v with
  | VInt z => inr (z >? 0)
  | VBool b => inr (Z.b2z b >? 0)
  | _ => inl TypeError
  end.

(** [v == 0]: never raises; values of other types are simply unequal. *)
Definition py_eq_0 (v : PyVal) : bool :=
  match v with
  | VInt z => z =? 0
  | VBool b => Z.b2z b =? 0
  | _ => false
  end.

(** [a // b] on [int]: floor division, which is what [Z.div] computes for
    either sign of the divisor; Python raises on a zero divisor. *)
Definition py_floordiv (a b : Z) : Exn + Z :=
  if b =? 0 then inl ZeroDivisionError else inr (a / b).

(** [int(v)], given what [int] makes of a [str] ([None] where it raises
    [ValueError]): the value of an [int] or [bool], a [TypeError] on [None],
    [list] and [tuple]. *)
Definition py_int (int_of_str : string -> option Z) (v : PyVal) : Exn + Z :=
  match v with
  | VInt z => inr z
  | VBool b => inr (Z.b2z b)
  | VStr s =>
      match int_of_str s with
      | Some z => inr z
      | None => inl ValueError
      end
  | VNone | VSeq _ => inl TypeError
  end.

(** [(a, b, c) = v] *)
Definition unpack3 (v : PyVal) : Exn + (PyVal * PyVal * PyVal) :=
  match v with
  | VSeq [a; b; c] => inr (a, b, c)
  | VSeq _ => inl ValueError
  | VStr (String a (String b (String c EmptyString))) =>
      inr (VStr (String a EmptyString),
           VStr (String b EmptyString),
           VStr (String c EmptyString))
  | VStr _ => inl ValueError
  | VNone | VBool _ | VInt _ => inl TypeError
  end.

(** [params[key]] and [params.get(key, default)] *)
Definition getitem (params : gmap string PyVal) (key : string) : Exn + PyVal :=
  match params !! key with
  | Some v => inr v
  | None => inl (KeyError key)
  end.

Definition get (params : gmap string PyVal) (key : string) (dflt : PyVal) : PyVal :=
  default dflt (params !! key).

(** ** Statements that change state and may raise *)

(** A computation over a state [St]: it ends in a value or in an exception,
    and the state it has reached by then is kept in both cases, as Python
    keeps the mutations made before a [raise]. *)
Definition M (St A : Type) : Type := St -> (Exn + A) * St.

#[global] Instance M_ret St : MRet (M St) :=
  fun A x s => (inr x, s).

#[global] Instance M_bind St : MBind (M St) :=
  fun A B f m s =>
    match m s with
    | (inl e, s') => (inl e, s')
    | (inr a, s') => f a s'
    end.

Definition raise {St A} (e : Exn) : M St A :=
  fun s => (inl e, s).

Definition lift {St A} (r : Exn + A) : M St A :=
  fun s => (r, s).

Definition gets {St A} (f : St -> A) : M St A :=
  fun s => (inr (f s), s).

Definition modify {St} (f : St -> St) : M St unit :=
  fun s => (inr tt, f s).

(** ** The collaborators the module imports *)

(** [modelzoo.common.pytorch.cb_model], imported as [cm]: what the
    distributed runtime answers in the current process. *)
Module cm.
Record runtime : Type := {
  is_streamer : bool;
  is_appliance : bool;
  num_streamers : Z;
  get_streaming_rank : Z;
}.
End cm.

(** [modelzoo.vision.pytorch.input.utils]: [create_worker_cache] and the
    module-level functions [num_tasks()] and [task_id()] (distinct from the
    attributes [self.num_tasks] and [self.task_id] set by [__init__]). *)
Module utils.
Record helpers : Type := {
  create_worker_cache : PyVal -> PyVal;
  num_tasks : Z;
  task_id : Z;
}.
End utils.

(** The parts of [torch] and [torch.utils.data] the class touches. *)
Module torch.

Inductive dtype : Type := bfloat16 | float16 | float32.

Inductive Device : Type := cpu.

(** A [torch.Generator]: its device and the seed given to [manual_seed],
    [None] for a generator that was never seeded by hand. *)
Record Generator : Type := {
  device : Device;
  seed : option Z;
}.

Definition new_Generator (d : Device) : Generator :=
  {| device := d; seed := None |}.

Definition manual_seed (s : Z) (g : Generator) : Generator :=
  {| device := device g; seed := Some s |}.

(** The seeds torch accepts, for the global generator and for a
    [Generator] alike: the inclusive range from [-0x8000_0000_0000_0000] to
    [0xffff_ffff_ffff_ffff]. *)
Definition seed_in_range (s : Z) : bool :=
  (- 2 ^ 63 <=? s) && (s <=? 2 ^ 64 - 1).

(** [g.manual_seed(s)]: a [RuntimeError] outside that range, with the
    message of torch 1.x. *)
Definition Generator_manual_seed (s : Z) (g : Generator) : Exn + Generator :=
  if seed_in_range s then inr (manual_seed s g)
  else inl (RuntimeError "Overflow when unpacking long").

Inductive Sampler : Type :=
  | RandomSampler (generator : Generator)
  | SequentialSampler.

(** What [torch.utils.data.get_worker_info()] returns inside a loading
    subprocess. *)
Record WorkerInfo : Type := {
  id : Z;
  num_workers : Z;
}.

End torch.

(** ** The processor object *)

(** [transforms.Lambda(self._apply_normalization)]: the only transform the
    base class installs.  It holds a bound method, so calling it reads the
    attributes of [self] at call time. *)
Inductive Transform : Type :=
  | Lambda_apply_normalization.

(** The attributes of an instance, in the order [__init__] assigns them.
    [normalize_transform] and [data_partitions] are attributes that may not
    exist: [None] stands for a missing attribute.  [batch_size] is the [int]
    that [get_streaming_batch_size] returns, [num_tasks] and [task_id] the
    [int]s the runtime reports, and [num_examples] the length that
    [__len__] hands to [len()], a natural number. *)
Record Processor : Type := {
  data_dir : PyVal;
  num_classes : PyVal;
  normalize_data_method : PyVal;
  normalize_transform : option Transform;
  image_shape : PyVal;
  tgt_image_height : PyVal;
  tgt_image_width : PyVal;
  channels : PyVal;
  loss_type : PyVal;
  shuffle_seed : PyVal;
  augment_data : PyVal;
  batch_size : Z;
  shuffle : PyVal;
  shuffle_buffer : PyVal;
  num_workers : PyVal;
  drop_last : PyVal;
  prefetch_factor : PyVal;
  persistent_workers : PyVal;
  mixed_precision : PyVal;
  mp_type : torch.dtype;
  num_tasks : Z;
  task_id : Z;
  num_examples : N;
  files_in_this_task : list PyVal;
  use_fast_dataloader : PyVal;
  duplicate_act_worker_data : PyVal;
  disable_sharding : bool;
  data_partitions : option PyVal;
}.

(** Assignment to the attributes that change after construction. *)
Definition with_mutable (n : N) (files : list PyVal) (ds : bool)
    (parts : option PyVal) (self : Processor) : Processor :=
  {| data_dir := data_dir self;
     num_classes := num_classes self;
     normalize_data_method := normalize_data_method self;
     normalize_transform := normalize_transform self;
     image_shape := image_shape self;
     tgt_image_height := tgt_image_height self;
     tgt_image_width := tgt_image_width self;
     channels := channels self;
     loss_type := loss_type self;
     shuffle_seed := shuffle_seed self;
     augment_data := augment_data self;
     batch_size := batch_size self;
     shuffle := shuffle self;
     shuffle_buffer := shuffle_buffer self;
     num_workers := num_workers self;
     drop_last := drop_last self;
     prefetch_factor := prefetch_factor self;
     persistent_workers := persistent_workers self;
     mixed_precision := mixed_precision self;
     mp_type := mp_type self;
     num_tasks := num_tasks self;
     task_id := task_id self;
     num_examples := n;
     files_in_this_task := files;
     use_fast_dataloader := use_fast_dataloader self;
     duplicate_act_worker_data := duplicate_act_worker_data self;
     disable_sharding := ds;
     data_partitions := parts |}.

Definition set_sharded (n : N) (files : list PyVal) (self : Processor) : Processor :=
  with_mutable n files (disable_sharding self) (data_partitions self) self.

Definition set_files_in_this_task (files : list PyVal) (self : Processor) : Processor :=
  with_mutable (num_examples self) files (disable_sharding self)
    (data_partitions self) self.

Definition set_disable_sharding (b : bool) (self : Processor) : Processor :=
  with_mutable (num_examples self) (files_in_this_task self) b
    (data_partitions self) self.

Definition set_data_partitions (parts : PyVal) (self : Processor) : Processor :=
  with_mutable (num_examples self) (files_in_this_task self)
    (disable_sharding self) (Some parts) self.

(** The data loader [create_dataloader] returns, as the constructor call
    that builds it: the class chosen and every keyword argument. *)
Inductive dataloader_fn : Type := FastDataLoader | DataLoader.

Inductive Callback : Type := self_worker_init_fn.

Record Loader : Type := {
  loader_class : dataloader_fn;
  arg_batch_size : Z;
  arg_drop_last : PyVal;
  arg_num_workers : PyVal;
  arg_prefetch_factor : PyVal;
  arg_persistent_workers : PyVal;
  arg_worker_init_fn : Callback;
  arg_sampler : torch.Sampler;
}.

(** What is decided outside this file when a value is converted or an
    object of [torch.utils.data] is built: what [int] makes of a [str], and
    the exception, if any, with which the constructors of [RandomSampler]
    and of the data loader (torch's or [FastDataLoader]) turn down their
    arguments.  [SequentialSampler] only stores its argument. *)
Record Library : Type := {
  int_of_str : string -> option Z;
  RandomSampler_raises : Processor -> torch.Generator -> option Exn;
  DataLoader_raises : Processor -> Loader -> option Exn;
}.

(** ** The world outside the object *)

(** Lines written by [print]. *)
Inductive Printed : Type :=
  | dataset_too_small (len_self : N) (tasks : Z) (batch : Z)
  | using_FastDataLoader.

(** Global state the methods act on: the arguments [torch.manual_seed] was
    called with (latest first), the state of Python's [random] module, and
    standard output (latest first). *)
Record World (RngState : Type) : Type := {
  torch_manual_seed_calls : list PyVal;
  random_state : RngState;
  stdout : list Printed;
}.
Arguments torch_manual_seed_calls {RngState} _.
Arguments random_state {RngState} _.
Arguments stdout {RngState} _.
Arguments Build_World {RngState} _ _ _.

(** Python's [random] module, over whatever its hidden state is: [seed]
    replaces the state, [shuffle] permutes a list and advances it. *)
Module random.
Record module (RngState : Type) : Type := {
  seed : Z -> RngState;
  shuffle : RngState -> list PyVal -> list PyVal * RngState;
}.
Arguments seed {RngState} _ _.
Arguments shuffle {RngState} _ _ _.
End random.

(** The methods a concrete subclass supplies.  [_shard_files] fills in the
    two attributes [__init__] leaves to be "set later", [num_examples] and
    [files_in_this_task]; the sharding methods return the partitions.
    [_maybe_shard_dataset] is not declared by the base class, which calls
    it all the same, so it is part of what a subclass must bring.  The
    methods are taken to act on nothing else: they read [self], and either
    hand back their result or raise before they have changed anything. *)
Class Subclass : Type := {
  _shard_files : bool -> Processor -> Exn + (N * list PyVal);
  _shard_dataset : Processor -> Z -> Z -> Exn + PyVal;
  _maybe_shard_dataset : Processor -> Z -> Exn + PyVal;
}.

(** ** The methods of [Hdf5BaseDataProcessor] *)

Section Hdf5BaseDataProcessor.

Context {RngState Tensor : Type}.

Variable rnd : random.module RngState.
Variable lib : Library.
Variable rt : cm.runtime.
Variable ut : utils.helpers.
Variable get_streaming_batch_size : PyVal -> Z.
Variable normalize_tensor_transform : Tensor -> PyVal -> Tensor.
Variable get_worker_info : option torch.WorkerInfo.
Context {sub : Subclass}.

(** The state a method call runs in: [self] and the world around it. *)
Definition St : Type := Processor * World RngState.

(** [torch.manual_seed(v)]: the call is made, [int(v)] may raise, and a
    seed out of range is a [RuntimeError]. *)
Definition torch_manual_seed (v : PyVal) : M (World RngState) unit :=
  modify (fun w =>
    {| torch_manual_seed_calls := v :: torch_manual_seed_calls w;
       random_state := random_state w;
       stdout := stdout w |});;
  seed ← lift (py_int (int_of_str lib) v);
  if torch.seed_in_range seed then mret tt
  else raise (RuntimeError "Overflow when unpacking long").

(** A constructor that turns its arguments down raises. *)
Definition construct {S : Type} (verdict : option Exn) : M S unit :=
  match verdict with
  | Some e => raise e
  | None => mret tt
  end.

(** [self.attr = ...] *)
Definition assign (f : Processor -> Processor) : M St unit :=
  modify (fun s => (f s.1, s.2)).

Definition print (line : Printed) : M St unit :=
  modify (fun s =>
    (s.1, {| torch_manual_seed_calls := torch_manual_seed_calls s.2;
             random_state := random_state s.2;
             stdout := line :: stdout s.2 |})).

(** [random.seed(n)] *)
Definition random_seed (n : Z) : M St unit :=
  modify (fun s =>
    (s.1, {| torch_manual_seed_calls := torch_manual_seed_calls s.2;
             random_state := random.seed rnd n;
             stdout := stdout s.2 |})).

(** [random.shuffle(self.files_in_this_task)]: shuffles the list in place. *)
Definition random_shuffle_files_in_this_task : M St unit :=
  modify (fun s =>
    let shuffled := random.shuffle rnd (random_state s.2) (files_in_this_task s.1) in
    (set_files_in_this_task shuffled.1 s.1,
     {| torch_manual_seed_calls := torch_manual_seed_calls s.2;
        random_state := shuffled.2;
        stdout := stdout s.2 |})).

(** Lines 64-130. *)
Definition __init__ (params : gmap string PyVal) : M (World RngState) Processor :=
  use_worker_cache ← lift (getitem params "use_worker_cache");
  params_data_dir ← lift (getitem params "data_dir");
  self_data_dir ←
    (if truthy use_worker_cache && cm.is_streamer rt then
       if negb (cm.is_appliance rt) then
         raise (RuntimeError "use_worker_cache not supported for non-appliance runs")
       else mret (utils.create_worker_cache ut params_data_dir)
     else mret params_data_dir);
  self_num_classes ← lift (getitem params "num_classes");
  let self_normalize_data_method := get params "normalize_data_method" VNone in
  let self_normalize_transform :=
    if truthy self_normalize_data_method
    then Some Lambda_apply_normalization else None in
  self_image_shape ← lift (getitem params "image_shape");
  '(height, width, chans) ← lift (unpack3 self_image_shape);
  self_loss_type ← lift (getitem params "loss");
  let self_shuffle_seed := get params "shuffle_seed" VNone in
  (if truthy self_shuffle_seed
   then torch_manual_seed self_shuffle_seed else mret tt);;
  let self_augment_data := get params "augment_data" (VBool true) in
  params_batch_size ← lift (getitem params "batch_size");
  let self_batch_size := get_streaming_batch_size params_batch_size in
  let self_shuffle := get params "shuffle" (VBool true) in
  let self_shuffle_buffer :=
    get params "shuffle_buffer" (VInt (10 * self_batch_size)) in
  let self_num_workers := get params "num_workers" (VInt 0) in
  let self_drop_last := get params "drop_last" (VBool true) in
  let self_prefetch_factor := get params "prefetch_factor" (VInt 10) in
  let self_persistent_workers := get params "persistent_workers" (VBool true) in
  let self_mixed_precision := get params "mixed_precision" VNone in
  self_mp_type ←
    (if truthy self_mixed_precision then
       use_bfloat16 ← lift (getitem params "use_bfloat16");
       mret (if truthy use_bfloat16 then torch.bfloat16 else torch.float16)
     else mret torch.float32);
  let self_num_tasks := if cm.is_streamer rt then cm.num_streamers rt else 1 in
  let self_task_id := if cm.is_streamer rt then cm.get_streaming_rank rt else 0 in
  mret {| data_dir := self_data_dir;
          num_classes := self_num_classes;
          normalize_data_method := self_normalize_data_method;
          normalize_transform := self_normalize_transform;
          image_shape := self_image_shape;
          tgt_image_height := height;
          tgt_image_width := width;
          channels := chans;
          loss_type := self_loss_type;
          shuffle_seed := self_shuffle_seed;
          augment_data := self_augment_data;
          batch_size := self_batch_size;
          shuffle := self_shuffle;
          shuffle_buffer := self_shuffle_buffer;
          num_workers := self_num_workers;
          drop_last := self_drop_last;
          prefetch_factor := self_prefetch_factor;
          persistent_workers := self_persistent_workers;
          mixed_precision := self_mixed_precision;
          mp_type := self_mp_type;
          num_tasks := self_num_tasks;
          task_id := self_task_id;
          num_examples := 0%N;
          files_in_this_task := [];
          use_fast_dataloader := get params "use_fast_dataloader" (VBool false);
          duplicate_act_worker_data :=
            get params "duplicate_act_worker_data" (VBool false);
          disable_sharding := false;
          data_partitions := None |}.

(** Lines 148-152. *)
Definition __len__ (self : Processor) : N :=
  num_examples self.

(** Lines 154-165.  The argument is overwritten on both branches, and the
    local [worker_id] is not read again. *)
Definition _worker_init_fn (worker_id : Z) : M St unit :=
  let worker_info := get_worker_info in
  let '(worker_id, num_workers) :=
    match worker_info with
    | Some info => (torch.id info, torch.num_workers info)
    | None => (0, 1)
    end in
  self ← gets fst;
  partitions ← lift (_maybe_shard_dataset self num_workers);
  assign (set_data_partitions partitions).

(** Lines 167-216. *)
Definition create_dataloader (is_training : bool) : M St Loader :=
  self ← gets fst;
  '(n, files) ← lift (_shard_files is_training self);
  assign (set_sharded n files);;
  let generator_fn := torch.new_Generator torch.cpu in
  self ← gets fst;
  per_task ← lift (py_floordiv (Z.of_N (num_examples self)) (utils.num_tasks ut));
  (if batch_size self >? per_task then
     print (dataset_too_small (__len__ self) (utils.num_tasks ut) (batch_size self));;
     assign (set_disable_sharding true)
   else mret tt);;
  self ← gets fst;
  data_sampler ←
    (if truthy (shuffle self) then
       generator_fn ←
         (if truthy (duplicate_act_worker_data self) || disable_sharding self then
            seed ←
              (if is_None (shuffle_seed self) then mret (utils.task_id ut)
               else lift (py_add_int (shuffle_seed self) (utils.task_id ut)));
            random_seed seed;;
            random_shuffle_files_in_this_task;;
            lift (torch.Generator_manual_seed seed generator_fn)
          else mret generator_fn);
       data_source ← gets fst;
       construct (RandomSampler_raises lib data_source generator_fn);;
       mret (torch.RandomSampler generator_fn)
     else mret torch.SequentialSampler);
  loader ←
    (if truthy (use_fast_dataloader self) then
       print using_FastDataLoader;; mret FastDataLoader
     else mret DataLoader);
  multi ← lift (py_gt_0 (num_workers self));
  let prefetch := if (multi : bool) then prefetch_factor self else VInt 2 in
  multi' ← lift (py_gt_0 (num_workers self));
  let persistent := if (multi' : bool) then persistent_workers self else VBool false in
  let data_loader :=
    {| loader_class := loader;
       arg_batch_size := batch_size self;
       arg_drop_last := drop_last self;
       arg_num_workers := num_workers self;
       arg_prefetch_factor := prefetch;
       arg_persistent_workers := persistent;
       arg_worker_init_fn := self_worker_init_fn;
       arg_sampler := data_sampler |} in
  dataset ← gets fst;
  construct (DataLoader_raises lib dataset data_loader);;
  (if py_eq_0 (num_workers self) then _worker_init_fn 0 else mret tt);;
  mret data_loader.

(** Lines 218-221. *)
Definition _apply_normalization (self : Processor) (x : Tensor) : Tensor :=
  normalize_tensor_transform x (normalize_data_method self).

(** Calling an installed transform on [x]. *)
Definition call_transform (self : Processor) (t : Transform) (x : Tensor) : Tensor :=
  match t with
  | Lambda_apply_normalization => _apply_normalization self x
  end.

End Hdf5BaseDataProcessor.

(** ** Vocabulary for the statements *)

(** The [num_workers] that lines 157-163 of [_worker_init_fn] settle on. *)
Definition settled_num_workers (worker_info : option torch.WorkerInfo) : Z :=
  match worker_info with
  | Some info => torch.num_workers info
  | None => 1
  end.

(** The [worker_id] the same lines settle on. *)
Definition settled_worker_id (worker_info : option torch.WorkerInfo) : Z :=
  match worker_info with
  | Some info => torch.id info
  | None => 0
  end.




(** What lines 180-193 of [create_dataloader] leave behind, given the flag
    [ds] that [disable_sharding] holds by then and the list [files] that
    [_shard_files] produced: the list [files'] now in
    [files_in_this_task] and the sampler built. *)
Definition sampler_drawn {RngState : Type} (rnd : random.module RngState)
    (ut : utils.helpers) (self : Processor) (ds : bool)
    (files files' : list PyVal) (sampler : torch.Sampler) : Prop :=
  if truthy (shuffle self) then
    if truthy (duplicate_act_worker_data self) || ds then
      exists seed,
        (if is_None (shuffle_seed self) then seed = utils.task_id ut
         else py_add_int (shuffle_seed self) (utils.task_id ut) = inr seed) /\
        files' = (random.shuffle rnd (random.seed rnd seed) files).1 /\
        sampler = torch.RandomSampler
                    (torch.manual_seed seed (torch.new_Generator torch.cpu))
    else files' = files /\
         sampler = torch.RandomSampler (torch.new_Generator torch.cpu)
  else files' = files /\ sampler = torch.SequentialSampler.

(** ** A concrete setting *)

(** A small subclass and runtime on which the methods can be run: three
    HDF5 files holding ten examples, sharded round-robin across workers by
    [_shard_dataset] and handed out whole by [_maybe_shard_dataset]. *)
Module Example.

(** [l[start::step]] *)
Definition every (start step : nat) (l : list PyVal) : list PyVal :=
  omap (fun i => l !! (start + i * step)%nat) (seq 0 (length l)).

(** A stand-in for the Mersenne Twister: the state is a counter and a
    shuffle rotates the list by it. *)
Definition rnd : random.module Z :=
  {| random.seed := fun n => n;
     random.shuffle := fun st l => (rotate (Z.to_nat st) l, st + 1) |}.

(** [int] on a [str] of ASCII digits. *)
Fixpoint digits (s : string) (acc : Z) : option Z :=
  match s with
  | EmptyString => Some acc
  | String c rest =>
      let d := Z.of_nat (Ascii.nat_of_ascii c) - 48 in
      if (0 <=? d) && (d <=? 9) then digits rest (10 * acc + d) else None
  end.

(** The checks of torch 1.x that bear on the arguments passed here: a
    [RandomSampler] wants a dataset that is not empty, the batch sampler a
    positive [batch_size] and a [bool] for [drop_last], the loader a
    [num_workers] that is not negative. *)
Definition lib : Library :=
  {| int_of_str := fun s =>
       match s with
       | EmptyString => None
       | String _ _ => digits s 0
       end;
     RandomSampler_raises := fun data_source _ =>
       if (num_examples data_source =? 0)%N then Some ValueError else None;
     DataLoader_raises := fun _ dl =>
       if arg_batch_size dl <=? 0 then Some ValueError
       else match arg_drop_last dl, arg_num_workers dl with
            | VBool _, VInt n => if n <? 0 then Some ValueError else None
            | VBool _, _ => None
            | _, _ => Some ValueError
            end |}.

Definition streamer : cm.runtime :=
  {| cm.is_streamer := true; cm.is_appliance := true;
     cm.num_streamers := 4; cm.get_streaming_rank := 2 |}.


Definition not_streamer : cm.runtime :=
  {| cm.is_streamer := false; cm.is_appliance := false;
     cm.num_streamers := 4; cm.get_streaming_rank := 2 |}.

Definition ut : utils.helpers :=
  {| utils.create_worker_cache := fun d => VSeq [VStr "worker_cache"; d];
     utils.num_tasks := 4;
     utils.task_id := 2 |}.

Definition get_streaming_batch_size (v : PyVal) : Z :=
  match v with VInt z => z | _ => 1 end.

Definition normalize_tensor_transform (x : Z) (method : PyVal) : Z :=
  match method with
  | VStr "zero_centered" => x - 128
  | _ => x
  end.

#[global] Instance hdf5 : Subclass :=
  {| _shard_files := fun _ _ =>
       inr (10%N, [VStr "a.h5"; VStr "b.h5"; VStr "c.h5"]);
     _shard_dataset := fun self worker_id num_workers =>
       inr (VSeq (every (Z.to_nat worker_id) (Z.to_nat num_workers)
                    (files_in_this_task self)));
     _maybe_shard_dataset := fun self _ =>
       inr (VSeq (files_in_this_task self)) |}.

Definition params : gmap string PyVal :=
  list_to_map
    [("use_worker_cache", VBool false); ("data_dir", VStr "/data/unet");
     ("num_classes", VInt 2);
     ("image_shape", VSeq [VInt 64; VInt 64; VInt 1]);
     ("loss", VStr "bce"); ("batch_size", VInt 8);
     ("normalize_data_method", VStr "zero_centered")].

Definition params_seed_0 : gmap string PyVal :=
  <["shuffle_seed" := VInt 0]> params.

Definition params_seed_5 : gmap string PyVal :=
  <["shuffle_seed" := VInt 5]> params.


Definition params_workers_2 : gmap string PyVal :=
  <["num_workers" := VInt 2]> (<["prefetch_factor" := VInt 4]> params).

Definition params_plain : gmap string PyVal :=
  <["shuffle" := VBool false]> (delete "normalize_data_method" params).

Definition world : World Z :=
  {| torch_manual_seed_calls := []; random_state := 41; stdout := [] |}.

Definition other_world : World Z :=
  {| torch_manual_seed_calls := [VInt 9]; random_state := 1000;
     stdout := [using_FastDataLoader] |}.

(** The processor [Hdf5BaseDataProcessor(params)] builds, or a blank one
    should the constructor raise. *)
Definition blank : Processor :=
  {| data_dir := VNone; num_classes := VNone; normalize_data_method := VNone;
     normalize_transform := None; image_shape := VNone;
     tgt_image_height := VNone; tgt_image_width := VNone; channels := VNone;
     loss_type := VNone; shuffle_seed := VNone; augment_data := VNone;
     batch_size := 0; shuffle := VNone; shuffle_buffer := VNone;
     num_workers := VNone; drop_last := VNone; prefetch_factor := VNone;
     persistent_workers := VNone; mixed_precision := VNone;
     mp_type := torch.float32; num_tasks := 0; task_id := 0;
     num_examples := 0%N; files_in_this_task := [];
     use_fast_dataloader := VNone; duplicate_act_worker_data := VNone;
     disable_sharding := false; data_partitions := None |}.

Definition built (rt : cm.runtime) (p : gmap string PyVal) : Processor :=
  match (__init__ lib rt ut get_streaming_batch_size p world).1 with
  | inr self => self
  | inl _ => blank
  end.

(** A built processor whose files have been listed. *)
Definition sharded : Processor :=
  set_sharded 10%N [VStr "a.h5"; VStr "b.h5"; VStr "c.h5"] (built streamer params).

Definition second_of_two : option torch.WorkerInfo :=
  Some {| torch.id := 1; torch.num_workers := 2 |}.

(** [create_dataloader()] in the main process of a streamer, on the
    processor built from [p]; the loader it returns and the state it
    leaves. *)
Definition ran (p : gmap string PyVal) : (Exn + Loader) * St :=
  create_dataloader rnd lib ut None true (built streamer p, world).

Definition no_loader : Loader :=
  {| loader_class := DataLoader; arg_batch_size := 0; arg_drop_last := VNone;
     arg_num_workers := VNone; arg_prefetch_factor := VNone;
     arg_persistent_workers := VNone; arg_worker_init_fn := self_worker_init_fn;
     arg_sampler := torch.SequentialSampler |}.

Definition made (p : gmap string PyVal) : Loader :=
  match (ran p).1 with
  | inr dl => dl
  | inl _ => no_loader
  end.

Definition left_behind (p : gmap string PyVal) : St :=
  (ran p).2.

End Example.

(** ** More vocabulary and settings *)


(** The base class on its own, lines 132-146: the bodies of the stubs are
    [pass], so they return [None] and change nothing, and
    [_maybe_shard_dataset] is not an attribute at all. *)
Definition base_stubs : Subclass :=
  {| _shard_files := fun _ self =>
       inr (num_examples self, files_in_this_task self);
     _shard_dataset := fun _ _ _ => inr VNone;
     _maybe_shard_dataset := fun _ _ => inl (OtherError "AttributeError") |}.

(** Further configurations, runtimes and subclasses around [Example]. *)
Module Cases.



Definition params_fp16 : gmap string PyVal :=
  <["mixed_precision" := VBool true]>
    (<["use_bfloat16" := VBool false]> Example.params).

Definition params_str_seed : gmap string PyVal :=
  <["shuffle_seed" := VStr "12"]> Example.params.

Definition params_none_workers : gmap string PyVal :=
  <["num_workers" := VNone]> Example.params.

Definition params_batch_2 : gmap string PyVal :=
  <["batch_size" := VInt 2]> Example.params.

Definition ut_no_tasks : utils.helpers :=
  {| utils.create_worker_cache := utils.create_worker_cache Example.ut;
     utils.num_tasks := 0;
     utils.task_id := 0 |}.

Definition ut_single_task : utils.helpers :=
  {| utils.create_worker_cache := utils.create_worker_cache Example.ut;
     utils.num_tasks := 1;
     utils.task_id := 0 |}.

Definition ut_task_3 : utils.helpers :=
  {| utils.create_worker_cache := utils.create_worker_cache Example.ut;
     utils.num_tasks := 4;
     utils.task_id := 3 |}.

Definition self_of (p : gmap string PyVal) : Processor :=
  Example.built Example.streamer p.

(** [create_dataloader()] on [self_of p] under the helpers [ut]. *)
Definition ran_under (ut : utils.helpers) (p : gmap string PyVal)
    : (Exn + Loader) * St :=
  create_dataloader Example.rnd Example.lib ut None true
    (self_of p, Example.world).

Definition made_under (ut : utils.helpers) (p : gmap string PyVal) : Loader :=
  match (ran_under ut p).1 with
  | inr dl => dl
  | inl _ => Example.no_loader
  end.

End Cases.

(** ** Running the monad *)

Lemma bind_inr {S A B} (m : M S A) (f : A -> M S B) s b s' :
  (m ≫= f) s = (inr b, s') ->
  exists a s1, m s = (inr a, s1) /\ f a s1 = (inr b, s').
Proof.
  unfold mbind, M_bind.
  destruct (m s) as [[e|a] s1]; [discriminate|]. eauto.
Qed.

Lemma lift_inr {S A} (r : Exn + A) (s : S) a s' :
  lift r s = (inr a, s') -> r = inr a /\ s' = s.
Proof. unfold lift. intros [= -> ->]. auto. Qed.

Lemma mret_inr {S A} (x : A) (s : S) a s' :
  (mret x : M S A) s = (inr a, s') -> a = x /\ s' = s.
Proof. unfold mret, M_ret. intros [= -> ->]. auto. Qed.

Lemma construct_inr {S} (verdict : option Exn) (s : S) a s' :
  construct verdict s = (inr a, s') -> verdict = None /\ s' = s.
Proof. destruct verdict; cbn; [discriminate|]. intros [= _ ->]. auto. Qed.

(** Splits a successful [m ≫= f] into the run of [m] and the run of [f]. *)
Tactic Notation "inv_bind" hyp(H) "as" ident(a) ident(s) ident(H1) :=
  apply bind_inr in H as (a & s & H1 & H).

(** Unfolds the monad and the primitive statements. *)
Ltac run_M :=
  unfold torch_manual_seed, construct;
  unfold mbind, M_bind, mret, M_ret, lift, raise, gets, modify, assign, print,
    random_seed, random_shuffle_files_in_this_task.

(** Case analysis on the scrutinee of an innermost [match] of the goal. *)
Ltac case_innermost :=
  match goal with
  | |- context [match ?x with _ => _ end] =>
      lazymatch x with
      | context [match _ with _ => _ end] => fail
      | _ => destruct x eqn:?
      end
  end.

Ltac all_cases := repeat (cbn; case_innermost); cbn.



(** ** Properties *)

Section Properties.

Context {RngState Tensor : Type}.

Variable rnd : random.module RngState.
Variable lib : Library.
Variable rt : cm.runtime.
Variable ut : utils.helpers.
Variable get_streaming_batch_size : PyVal -> Z.
Variable normalize_tensor_transform : Tensor -> PyVal -> Tensor.
Variable get_worker_info : option torch.WorkerInfo.
Context {sub : Subclass}.

#[local] Abbreviation init :=
  (__init__ (RngState := RngState) lib rt ut get_streaming_batch_size).
#[local] Abbreviation loader :=
  (create_dataloader rnd lib ut get_worker_info).
#[local] Abbreviation worker_init :=
  (_worker_init_fn (RngState := RngState) get_worker_info).

(** *** The constructor *)

(** What a processor that [__init__] returned looks like. *)
Lemma init_inr params w self w' :
  init params w = (inr self, w') ->
  exists u d bs,
    params !! "use_worker_cache" = Some u /\
    params !! "data_dir" = Some d /\
    params !! "batch_size" = Some bs /\
    (truthy u && cm.is_streamer rt = true -> cm.is_appliance rt = true) /\
    data_dir self =
      (if truthy u && cm.is_streamer rt
       then utils.create_worker_cache ut d else d) /\
    normalize_data_method self = get params "normalize_data_method" VNone /\
    normalize_transform self =
      (if truthy (get params "normalize_data_method" VNone)
       then Some Lambda_apply_normalization else None) /\
    shuffle_seed self = get params "shuffle_seed" VNone /\
    batch_size self = get_streaming_batch_size bs /\
    shuffle self = get params "shuffle" (VBool true) /\
    num_workers self = get params "num_workers" (VInt 0) /\
    drop_last self = get params "drop_last" (VBool true) /\
    prefetch_factor self = get params "prefetch_factor" (VInt 10) /\
    persistent_workers self = get params "persistent_workers" (VBool true) /\
    num_tasks self = (if cm.is_streamer rt then cm.num_streamers rt else 1) /\
    task_id self = (if cm.is_streamer rt then cm.get_streaming_rank rt else 0) /\
    num_examples self = 0%N /\
    files_in_this_task self = [] /\
    disable_sharding self = false /\
    data_partitions self = None.
Proof.
  intros H. unfold __init__ in H.
  inv_bind H as u s0 Hu. apply lift_inr in Hu as [Hu ->].
  inv_bind H as d s0 Hd. apply lift_inr in Hd as [Hd ->].
  inv_bind H as dir s0 Hdir.
  inv_bind H as nc s1 Hnc. apply lift_inr in Hnc as [_ ->].
  cbv zeta in H.
  inv_bind H as ish s1 Hish. apply lift_inr in Hish as [_ ->].
  inv_bind H as hwc s1 Hhwc. apply lift_inr in Hhwc as [_ ->].
  destruct hwc as [[h wd] c].
  inv_bind H as loss s1 Hloss. apply lift_inr in Hloss as [_ ->].
  inv_bind H as u1 s1 Hseed.
  inv_bind H as bs s2 Hbs. apply lift_inr in Hbs as [Hbs ->].
  inv_bind H as mp s2 Hmp.
  apply mret_inr in H as [-> _].
  unfold getitem in Hu, Hd, Hbs.
  destruct (params !! "use_worker_cache") as [u'|] eqn:Eu; [|discriminate].
  destruct (params !! "data_dir") as [d'|] eqn:Ed; [|discriminate].
  destruct (params !! "batch_size") as [bs'|] eqn:Ebs; [|discriminate].
  injection Hu as ->. injection Hd as ->. injection Hbs as ->.
  exists u, d, bs. cbn.
  assert ((truthy u && cm.is_streamer rt = true -> cm.is_appliance rt = true) /\
          dir = if truthy u && cm.is_streamer rt
                then utils.create_worker_cache ut d else d) as [Happ ->].
  { destruct (truthy u && cm.is_streamer rt).
    - destruct (cm.is_appliance rt); cbn in Hdir.
      + apply mret_inr in Hdir as [-> _]. auto.
      + discriminate.
    - apply mret_inr in Hdir as [-> _]. split; [discriminate|reflexivity]. }
  repeat split; auto.
Qed.

(** Names the facts of [init_inr]. *)
Ltac init_facts H :=
  apply init_inr in H
    as (u_ & d_ & bs_ & Huwc & Hdir_key & Hbs_key & Happ & Hdata_dir & Hmethod
        & Htransform & Hseed_attr & Hbatch & Hshuffle & Hworkers & Hdrop
        & Hprefetch & Hpersistent & Htasks & Hid & Hlen & Hfiles & Hfresh
        & Hparts).

(** The constructor's result does not depend on the world it runs in. *)
Lemma init_world_irrelevant params (w1 w2 : World RngState) :
  (init params w1).1 = (init params w2).1.
Proof.
  unfold __init__. run_M.
  repeat (cbn; try reflexivity; case_innermost).
Qed.

(** With a falsy [shuffle_seed] the constructor leaves the world alone,
    whether it returns or raises. *)
Lemma init_unseeded params (w : World RngState) :
  truthy (get params "shuffle_seed" VNone) = false ->
  (init params w).2 = w.
Proof.
  intros Hs. unfold __init__. run_M. rewrite Hs.
  repeat (cbn; try reflexivity; case_innermost).
Qed.

(** With a truthy one, a constructor that returns has called
    [torch.manual_seed] on it, once. *)
Lemma init_seeded params (w : World RngState) self w' :
  init params w = (inr self, w') ->
  truthy (get params "shuffle_seed" VNone) = true ->
  torch_manual_seed_calls w' =
    get params "shuffle_seed" VNone :: torch_manual_seed_calls w.
Proof.
  intros H Hs. revert H. unfold __init__. run_M. rewrite Hs.
  all_cases; intros [= <- <-]; reflexivity.
Qed.



(** *** The worker initialiser *)

(** [_worker_init_fn] in one equation: whatever [worker_id] it is called
    with, it stores what [_maybe_shard_dataset] returns for the settled
    number of workers, or passes on the exception. *)
Lemma worker_init_fn_run worker_id self (w : World RngState) :
  worker_init worker_id (self, w) =
  match _maybe_shard_dataset self (settled_num_workers get_worker_info) with
  | inr parts => (inr tt, (set_data_partitions parts self, w))
  | inl e => (inl e, (self, w))
  end.
Proof.
  unfold _worker_init_fn, settled_num_workers.
  destruct get_worker_info as [info|]; cbn; run_M; cbn;
    destruct (_maybe_shard_dataset self _); reflexivity.
Qed.

(** *** The data loader *)

(** A call of [create_dataloader] that returns, phase by phase: the files
    were listed, [num_tasks()] is not zero, the sampler was drawn, the
    loader was built from the attributes, and [_worker_init_fn(0)] ran from
    the state [mid] reached by then when [num_workers == 0]. *)
Lemma create_dataloader_inr b self (w : World RngState) dl fin :
  loader b (self, w) = (inr dl, fin) ->
  exists n files files' sampler multi mid_w,
    _shard_files b self = inr (n, files) /\
    utils.num_tasks ut <> 0 /\
    let ds := (batch_size self >? Z.of_N n / utils.num_tasks ut)
              || disable_sharding self in
    let mid := with_mutable n files' ds (data_partitions self) self in
    sampler_drawn rnd ut self ds files files' sampler /\
    py_gt_0 (num_workers self) = inr multi /\
    dl = {| loader_class :=
              if truthy (use_fast_dataloader self)
              then FastDataLoader else DataLoader;
            arg_batch_size := batch_size self;
            arg_drop_last := drop_last self;
            arg_num_workers := num_workers self;
            arg_prefetch_factor :=
              if multi then prefetch_factor self else VInt 2;
            arg_persistent_workers :=
              if multi then persistent_workers self else VBool false;
            arg_worker_init_fn := self_worker_init_fn;
            arg_sampler := sampler |} /\
    (if py_eq_0 (num_workers self)
     then worker_init 0 (mid, mid_w) = (inr tt, fin)
     else fin = (mid, mid_w)).
Proof.
  intros H. unfold create_dataloader in H.
  inv_bind H as self0 s0 Hself. unfold gets in Hself.
  injection Hself as <- <-. cbn [fst snd] in H.
  inv_bind H as nf s0 Hshard. apply lift_inr in Hshard as [Hshard ->].
  destruct nf as [n files].
  inv_bind H as u0 s0 Hset. unfold assign, modify in Hset.
  injection Hset as _ <-. cbn [fst snd] in H. cbv zeta in H.
  inv_bind H as self1 s0 Hself. unfold gets in Hself.
  injection Hself as <- <-. cbn [fst snd] in H.
  inv_bind H as per_task s0 Hdiv. apply lift_inr in Hdiv as [Hdiv ->].
  unfold py_floordiv in Hdiv. cbn in Hdiv.
  destruct (utils.num_tasks ut =? 0) eqn:Hnt; [discriminate|].
  injection Hdiv as <-. apply Z.eqb_neq in Hnt.
  inv_bind H as u1 s1 Hcheck.
  set (ds := (batch_size self >? Z.of_N n / utils.num_tasks ut)
             || disable_sharding self).
  assert (exists w1,
            s1 = (with_mutable n files ds (data_partitions self) self, w1))
    as [w1 ->].
  { subst ds. cbn in Hcheck.
    destruct (batch_size self >? _); run_M; cbn in Hcheck;
      injection Hcheck as _ <-; eauto. }
  clear Hcheck.
  inv_bind H as self2 s2 Hself. unfold gets in Hself.
  injection Hself as <- <-. cbn [fst snd] in H.
  inv_bind H as sampler s3 Hsam.
  assert (exists files' w2,
            s3 = (with_mutable n files' ds (data_partitions self) self, w2) /\
            sampler_drawn rnd ut self ds files files' sampler)
    as (files' & w2 & -> & Hdrawn).
  { clear H. unfold sampler_drawn. cbn in Hsam.
    destruct (truthy (shuffle self)).
    - inv_bind Hsam as gen s4 Hgen.
      inv_bind Hsam as source s8 Hsource. unfold gets in Hsource.
      injection Hsource as _ <-.
      inv_bind Hsam as u8 s9 Hctor. apply construct_inr in Hctor as [_ ->].
      apply mret_inr in Hsam as [-> ->].
      destruct (truthy (duplicate_act_worker_data self) || ds).
      + inv_bind Hgen as seed s5 Hseed.
        assert (s5 = (with_mutable n files ds (data_partitions self) self, w1) /\
                if is_None (shuffle_seed self) then seed = utils.task_id ut
                else py_add_int (shuffle_seed self) (utils.task_id ut)
                     = inr seed) as [-> Hseed'].
        { destruct (is_None (shuffle_seed self)).
          - apply mret_inr in Hseed as [-> ->]. auto.
          - apply lift_inr in Hseed as [-> ->]. auto. }
        clear Hseed.
        inv_bind Hgen as u2 s6 Hrs. inv_bind Hgen as u3 s7 Hsh.
        apply lift_inr in Hgen as [Hrange ->].
        unfold torch.Generator_manual_seed in Hrange.
        destruct (torch.seed_in_range seed); [|discriminate].
        injection Hrange as <-.
        unfold random_seed, modify in Hrs. injection Hrs as _ <-.
        unfold random_shuffle_files_in_this_task, modify in Hsh.
        cbn in Hsh. injection Hsh as _ <-.
        eexists _, _. split; [reflexivity|]. exists seed. auto.
      + apply mret_inr in Hgen as [-> ->].
        eexists _, _. split; [reflexivity|]. auto.
    - apply mret_inr in Hsam as [-> ->].
      eexists _, _. split; [reflexivity|]. auto. }
  clear Hsam. cbn in H.
  inv_bind H as cls s4 Hcls.
  assert (cls = (if truthy (use_fast_dataloader self)
                 then FastDataLoader else DataLoader) /\
          exists w3,
            s4 = (with_mutable n files' ds (data_partitions self) self, w3))
    as (-> & w3 & ->).
  { destruct (truthy (use_fast_dataloader self)).
    - inv_bind Hcls as u4 s5 Hp. apply mret_inr in Hcls as [-> ->].
      unfold print, modify in Hp. injection Hp as _ <-. eauto.
    - apply mret_inr in Hcls as [-> ->]. eauto. }
  clear Hcls.
  inv_bind H as multi s5 Hm. apply lift_inr in Hm as [Hm ->].
  inv_bind H as multi' s6 Hm'. apply lift_inr in Hm' as [Hm' ->].
  assert (multi' = multi) as -> by congruence. clear Hm'.
  inv_bind H as dataset s8 Hdataset. unfold gets in Hdataset.
  injection Hdataset as _ <-.
  inv_bind H as u6 s9 Hctor. apply construct_inr in Hctor as [_ ->].
  inv_bind H as u5 s7 Hw. apply mret_inr in H as [-> ->].
  exists n, files, files', sampler, multi, w3.
  repeat (split; [done|]).
  destruct (py_eq_0 (num_workers self)).
  - by destruct u5.
  - by apply mret_inr in Hw as [_ ->].
Qed.

(** After a call that returns, [self] differs from what the loader was
    built from in [data_partitions] at most. *)
Lemma create_dataloader_final b self (w : World RngState) dl fin :
  loader b (self, w) = (inr dl, fin) ->
  exists n files files' sampler parts,
    _shard_files b self = inr (n, files) /\
    utils.num_tasks ut <> 0 /\
    let ds := (batch_size self >? Z.of_N n / utils.num_tasks ut)
              || disable_sharding self in
    sampler_drawn rnd ut self ds files files' sampler /\
    arg_sampler dl = sampler /\
    fin.1 = with_mutable n files' ds parts self.
Proof.
  intros H. apply create_dataloader_inr in H
    as (n & files & files' & sampler & multi & mid_w
        & Hshard & Hnt & Hdrawn & _ & -> & Hfin).
  destruct (py_eq_0 (num_workers self)).
  - rewrite worker_init_fn_run in Hfin.
    destruct (_maybe_shard_dataset _ _) as [e|parts]; [discriminate|].
    injection Hfin as <-.
    exists n, files, files', sampler, (Some parts). auto.
  - subst fin. exists n, files, files', sampler, (data_partitions self). auto.
Qed.

(** Neither the outcome of [create_dataloader] nor the object it leaves
    depends on the world the call starts in: [random.seed] replaces the
    state of [random] before [random.shuffle] reads it. *)
Lemma create_dataloader_world_irrelevant b self (w1 w2 : World RngState) :
  (loader b (self, w1)).1 = (loader b (self, w2)).1 /\
  (loader b (self, w1)).2.1 = (loader b (self, w2)).2.1.
Proof.
  unfold create_dataloader, _worker_init_fn, py_floordiv. run_M.
  repeat (cbn; try (split; reflexivity); case_innermost).
Qed.

(** However the call ends, once the files are listed and the division is
    defined the flag holds the outcome of the size test, or what it held
    before. *)
Lemma create_dataloader_flag b self (w : World RngState) n files :
  _shard_files b self = inr (n, files) ->
  utils.num_tasks ut <> 0 ->
  let fin := (loader b (self, w)).2.1 in
  num_examples fin = n /\
  batch_size fin = batch_size self /\
  disable_sharding fin =
    (batch_size self >? Z.of_N n / utils.num_tasks ut) || disable_sharding self.
Proof.
  intros Hshard Hnt. apply Z.eqb_neq in Hnt.
  unfold create_dataloader, _worker_init_fn, py_floordiv. run_M.
  cbn. rewrite Hshard. cbn. rewrite Hnt.
  repeat (cbn; try (repeat split; reflexivity); case_innermost).
Qed.

(** A call that returns after taking the seeded branch of lines 181-188:
    the seed, the shuffled files and the sampler. *)
Lemma create_dataloader_seeded b self (w : World RngState) dl fin :
  loader b (self, w) = (inr dl, fin) ->
  truthy (shuffle self) = true ->
  truthy (duplicate_act_worker_data self) || disable_sharding fin.1 = true ->
  exists seed n files,
    _shard_files b self = inr (n, files) /\
    (if is_None (shuffle_seed self) then seed = utils.task_id ut
     else py_add_int (shuffle_seed self) (utils.task_id ut) = inr seed) /\
    files_in_this_task fin.1 =
      (random.shuffle rnd (random.seed rnd seed) files).1 /\
    arg_sampler dl =
      torch.RandomSampler {| torch.device := torch.cpu; torch.seed := Some seed |}.
Proof.
  intros H Hshuffle Hflag.
  apply create_dataloader_final in H
    as (n & files & files' & sampler & parts & Hshard & _ & Hdrawn & -> & Hfin).
  rewrite Hfin in Hflag |- *. cbn in Hflag |- *.
  unfold sampler_drawn in Hdrawn. rewrite Hshuffle, Hflag in Hdrawn.
  destruct Hdrawn as (seed & Hseed & -> & ->).
  exists seed, n, files. auto.
Qed.

Lemma py_eq_0_not_gt v : py_eq_0 v = true -> py_gt_0 v = inr false.
Proof.
  destruct v as [|[]|z| |]; cbn; try discriminate; try reflexivity.
  intros ->%Z.eqb_eq. reflexivity.
Qed.

(** *** Calls that return *)


(** [create_dataloader] returns once [_shard_files] does, [num_tasks()] is
    not zero, [shuffle_seed] can be added to an [int] or is [None], the seed
    is in range, the constructors take their arguments, [num_workers]
    compares with 0, and [_maybe_shard_dataset] returns. *)
Lemma create_dataloader_returns b self (w : World RngState) n files multi :
  _shard_files b self = inr (n, files) ->
  utils.num_tasks ut <> 0 ->
  (is_None (shuffle_seed self) = true \/
   exists seed, py_add_int (shuffle_seed self) (utils.task_id ut) = inr seed) ->
  (forall seed,
     (if is_None (shuffle_seed self) then seed = utils.task_id ut
      else py_add_int (shuffle_seed self) (utils.task_id ut) = inr seed) ->
     torch.seed_in_range seed = true) ->
  (forall p g, RandomSampler_raises lib p g = None) ->
  (forall p dl, DataLoader_raises lib p dl = None) ->
  py_gt_0 (num_workers self) = inr multi ->
  (forall p k, exists parts, _maybe_shard_dataset p k = inr parts) ->
  exists dl fin, loader b (self, w) = (inr dl, fin).
Proof.
  intros Hshard Hnt Hseed Hrange Hsampler Hloader Hmulti Hparts.
  apply Z.eqb_neq in Hnt.
  unfold create_dataloader, _worker_init_fn, py_floordiv,
    torch.Generator_manual_seed. run_M.
  cbn. rewrite Hshard. cbn. rewrite Hnt.
  repeat (cbn; rewrite ?Hmulti, ?Hsampler, ?Hloader; try solve [eauto];
          case_innermost).
  all: try solve [destruct Hseed as [?|[? ?]]; congruence].
  all: try solve [match goal with
         | H : torch.seed_in_range ?z = false |- _ =>
             rewrite (Hrange z) in H; [discriminate|];
             repeat match goal with
               | E : is_None _ = _ |- _ => rewrite E
               end; done
         end].
  all: match goal with
       | H : _maybe_shard_dataset ?p ?k = inl _ |- _ =>
           destruct (Hparts p k); congruence
       end.
Qed.

(** *** The claims *)


(** Claim C2.  On a processor fresh from [__init__], [create_dataloader]
    sets [disable_sharding] to [True] if and only if, once [_shard_files]
    has run, [batch_size > num_examples // num_tasks()]; otherwise the flag
    keeps the [False] it was initialised with. *)
Theorem create_dataloader_disable_sharding params (w0 w0' w : World RngState)
    self b n files :
  init params w0 = (inr self, w0') ->
  _shard_files b self = inr (n, files) ->
  utils.num_tasks ut <> 0 ->
  let fin := (loader b (self, w)).2.1 in
  disable_sharding self = false /\
  num_examples fin = n /\
  batch_size fin = batch_size self /\
  (disable_sharding fin = true <->
   batch_size fin > Z.of_N (num_examples fin) / utils.num_tasks ut) /\
  (~ batch_size fin > Z.of_N (num_examples fin) / utils.num_tasks ut ->
   disable_sharding fin = false).
Proof.
  intros Hinit Hshard Hnt fin.
  init_facts Hinit.
  destruct (create_dataloader_flag b self w n files Hshard Hnt)
    as (Hn & Hb & Hflag).
  fold fin in Hn, Hb, Hflag.
  rewrite Hfresh, orb_false_r in Hflag.
  rewrite Hflag, Hn, Hb.
  repeat split; auto.
  - intros E. apply Z.gtb_gt in E. lia.
  - intros E. apply Z.gtb_gt. lia.
  - intros E. destruct (batch_size self >? _) eqn:G; [|done].
    apply Z.gtb_gt in G. lia.
Qed.


(** Claim C4.  Partitioning across tasks is deterministic: two processors
    built from the same [params] under the same runtime responses, whatever
    the global state each run starts from, leave the same order in
    [files_in_this_task] and build the same sampler, generator seed
    included. *)
Theorem create_dataloader_deterministic params (w1 w2 v1 v2 : World RngState)
    self1 self2 b :
  (init params w1).1 = inr self1 ->
  (init params w2).1 = inr self2 ->
  let run1 := loader b (self1, v1) in
  let run2 := loader b (self2, v2) in
  self1 = self2 /\
  files_in_this_task run1.2.1 = files_in_this_task run2.2.1 /\
  run1.1 = run2.1 /\
  (forall dl1 dl2, run1.1 = inr dl1 -> run2.1 = inr dl2 ->
     arg_sampler dl1 = arg_sampler dl2).
Proof.
  intros H1 H2 run1 run2.
  assert (self1 = self2) as <-.
  { rewrite (init_world_irrelevant params w1 w2) in H1. congruence. }
  destruct (create_dataloader_world_irrelevant b self1 v1 v2) as [Hout Hself].
  fold run1 run2 in Hout, Hself.
  repeat split; auto.
  - by rewrite Hself.
  - intros dl1 dl2 E1 E2. congruence.
Qed.

(** Claim C6.  [create_dataloader] builds the loader with a
    [RandomSampler] driven by the cpu generator when [shuffle] is true and
    with a [SequentialSampler] when it is false, and passes the configured
    [batch_size], [drop_last] and [num_workers]. *)
Theorem create_dataloader_sampler_and_arguments params
    (w0 w0' w : World RngState) self b dl fin :
  init params w0 = (inr self, w0') ->
  loader b (self, w) = (inr dl, fin) ->
  (truthy (get params "shuffle" (VBool true)) = true ->
   exists g, arg_sampler dl = torch.RandomSampler g /\
             torch.device g = torch.cpu) /\
  (truthy (get params "shuffle" (VBool true)) = false ->
   arg_sampler dl = torch.SequentialSampler) /\
  (exists bs, params !! "batch_size" = Some bs /\
              arg_batch_size dl = get_streaming_batch_size bs) /\
  arg_drop_last dl = get params "drop_last" (VBool true) /\
  arg_num_workers dl = get params "num_workers" (VInt 0) /\
  arg_worker_init_fn dl = self_worker_init_fn.
Proof.
  intros Hinit Hrun.
  init_facts Hinit.
  apply create_dataloader_inr in Hrun
    as (n & files & files' & sampler & multi & mid_w
        & _ & _ & Hdrawn & _ & -> & _).
  cbn. unfold sampler_drawn in Hdrawn. rewrite Hshuffle in Hdrawn.
  repeat split; eauto.
  - intros E. rewrite E in Hdrawn.
    destruct (truthy (duplicate_act_worker_data self) || _).
    + destruct Hdrawn as (seed & _ & _ & ->). eauto.
    + destruct Hdrawn as [_ ->]. eauto.
  - intros E. rewrite E in Hdrawn. by destruct Hdrawn.
Qed.

(** Claim C7.  When [params] holds a non-empty [normalize_data_method],
    [__init__] installs a normalisation transform, and applying it to any
    [x] returns [normalize_tensor_transform(x, normalize_data_method=...)]
    for that method; when the key is absent or falsy no
    [normalize_transform] attribute is created. *)
Theorem init_normalize_transform params (w : World RngState) self w' :
  init params w = (inr self, w') ->
  (forall method,
     params !! "normalize_data_method" = Some method ->
     truthy method = true ->
     exists t,
       normalize_transform self = Some t /\
       forall x, call_transform normalize_tensor_transform self t x =
                 normalize_tensor_transform x method) /\
  (params !! "normalize_data_method" = None \/
   (exists method, params !! "normalize_data_method" = Some method /\
                   truthy method = false) ->
   normalize_transform self = None).
Proof.
  intros Hinit.
  init_facts Hinit.
  unfold get in Hmethod, Htransform. split.
  - intros method E Htrue. rewrite E in Hmethod, Htransform.
    cbn in Hmethod, Htransform. rewrite Htrue in Htransform.
    exists Lambda_apply_normalization.
    split; [done|]. intros x. cbn. unfold _apply_normalization.
    by rewrite Hmethod.
  - intros [E | (method & E & Hfalse)];
      rewrite E in Htransform; cbn in Htransform.
    + done.
    + by rewrite Hfalse in Htransform.
Qed.

(** Claim C8.  Whenever [num_workers == 0] the loader is built with
    [prefetch_factor] 2 and [persistent_workers] [False], whatever [params]
    supplies for them; the values of [params] are used only when
    [num_workers > 0]. *)
Theorem create_dataloader_single_process_arguments params
    (w0 w0' w : World RngState) self b dl fin :
  init params w0 = (inr self, w0') ->
  loader b (self, w) = (inr dl, fin) ->
  let workers := get params "num_workers" (VInt 0) in
  (py_eq_0 workers = true ->
   arg_prefetch_factor dl = VInt 2 /\
   arg_persistent_workers dl = VBool false) /\
  (py_gt_0 workers = inr true ->
   arg_prefetch_factor dl = get params "prefetch_factor" (VInt 10) /\
   arg_persistent_workers dl = get params "persistent_workers" (VBool true)) /\
  (py_gt_0 workers <> inr true ->
   arg_prefetch_factor dl = VInt 2 /\
   arg_persistent_workers dl = VBool false).
Proof.
  intros Hinit Hrun workers.
  init_facts Hinit.
  apply create_dataloader_inr in Hrun
    as (n & files & files' & sampler & multi & mid_w
        & _ & _ & _ & Hmulti & -> & _).
  cbn. rewrite Hworkers in Hmulti. fold workers in Hmulti.
  rewrite Hprefetch, Hpersistent.
  repeat split.
  - apply py_eq_0_not_gt in H. assert (multi = false) as -> by congruence. done.
  - apply py_eq_0_not_gt in H. assert (multi = false) as -> by congruence. done.
  - assert (multi = true) as -> by congruence. done.
  - assert (multi = true) as -> by congruence. done.
  - destruct multi; [congruence|done].
  - destruct multi; [congruence|done].
Qed.

(** Claim C9.  Right after [__init__], before any call of
    [create_dataloader], [__len__] returns 0 and [files_in_this_task] is the
    empty list; moreover, outside a streamer [num_tasks] is 1 and
    [task_id] is 0. *)
Theorem init_before_create_dataloader params (w : World RngState) self w' :
  init params w = (inr self, w') ->
  __len__ self = 0%N /\
  files_in_this_task self = [] /\
  (cm.is_streamer rt = false -> num_tasks self = 1 /\ task_id self = 0).
Proof.
  intros Hinit.
  init_facts Hinit.
  unfold __len__. repeat split; auto.
  - by rewrite Htasks, H.
  - by rewrite Hid, H.
Qed.

(** Claim C10.  When [params] supplies [shuffle_seed] equal to 0,
    [__init__] does not call [torch.manual_seed], yet the seed computation
    of [create_dataloader] treats the seed as set and uses
    [0 + task_id()], not the [shuffle_seed is None] branch. *)
Theorem zero_shuffle_seed params (w : World RngState) :
  params !! "shuffle_seed" = Some (VInt 0) ->
  torch_manual_seed_calls (init params w).2 = torch_manual_seed_calls w /\
  (forall self,
     (init params w).1 = inr self ->
     shuffle_seed self = VInt 0 /\
     is_None (shuffle_seed self) = false /\
     forall b (v : World RngState) dl fin,
       loader b (self, v) = (inr dl, fin) ->
       truthy (shuffle self) = true ->
       truthy (duplicate_act_worker_data self) || disable_sharding fin.1 = true ->
       py_add_int (shuffle_seed self) (utils.task_id ut)
         = inr (0 + utils.task_id ut) /\
       arg_sampler dl =
         torch.RandomSampler
           {| torch.device := torch.cpu;
              torch.seed := Some (0 + utils.task_id ut) |} /\
       exists n files,
         _shard_files b self = inr (n, files) /\
         files_in_this_task fin.1 =
           (random.shuffle rnd
              (random.seed rnd (0 + utils.task_id ut)) files).1).
Proof.
  intros Hseed.
  assert (Hget : get params "shuffle_seed" VNone = VInt 0)
    by (unfold get; by rewrite Hseed).
  split.
  - rewrite init_unseeded; [done|]. by rewrite Hget.
  - intros self Hself.
    destruct (init params w) as [res w'] eqn:Hrun. cbn in Hself. subst res.
    init_facts Hrun.
    rename Hseed_attr into Hs.
    rewrite Hget in Hs. rewrite Hs. repeat split.
    all: intros; try reflexivity.
    + destruct (create_dataloader_seeded b self v dl fin)
        as (seed & n & files & _ & Hc & _ & Hsam); auto.
      rewrite Hs in Hc. cbn in Hc. injection Hc as <-. exact Hsam.
    + destruct (create_dataloader_seeded b self v dl fin)
        as (seed & n & files & Hshard & Hc & Hshuffled & _); auto.
      rewrite Hs in Hc. cbn in Hc. injection Hc as <-. eauto.
Qed.

End Properties.

(** Claim C5, as the code has it.  Whatever [worker_id] it is called with,
    [_worker_init_fn] settles [num_workers] from torch's worker info when
    there is one and on 1 in single-process mode, and sets
    [self.data_partitions] to [self._maybe_shard_dataset(num_workers)]: the
    sharding call receives the number of workers and not the worker id.
    [create_dataloader] calls it directly, with worker id 0, when
    [num_workers == 0], and not otherwise. *)
Theorem worker_init_fn_data_partitions {RngState : Type}
    (rnd : random.module RngState) (lib : Library) (ut : utils.helpers)
    (sub : Subclass) :
  (forall worker_info worker_id self (w : World RngState),
     _worker_init_fn worker_info worker_id (self, w) =
     match _maybe_shard_dataset self (settled_num_workers worker_info) with
     | inr parts => (inr tt, (set_data_partitions parts self, w))
     | inl e => (inl e, (self, w))
     end) /\
  settled_num_workers None = 1 /\
  (forall info, settled_num_workers (Some info) = torch.num_workers info) /\
  (forall worker_info b self (w : World RngState) dl fin,
     create_dataloader rnd lib ut worker_info b (self, w) = (inr dl, fin) ->
     if py_eq_0 (num_workers self) then
       exists mid_w parts,
         _worker_init_fn worker_info 0
           (with_mutable (num_examples fin.1) (files_in_this_task fin.1)
              (disable_sharding fin.1) (data_partitions self) self, mid_w)
         = (inr tt, fin) /\
         data_partitions fin.1 = Some parts
     else data_partitions fin.1 = data_partitions self).
Proof.
  split; [intros; apply worker_init_fn_run|].
  split; [reflexivity|]. split; [reflexivity|].
  intros worker_info b self w dl fin H.
  apply create_dataloader_inr in H
    as (n & files & files' & sampler & multi & mid_w
        & _ & _ & _ & _ & _ & Hfin).
  destruct (py_eq_0 (num_workers self)).
  - pose proof Hfin as Hrun. rewrite worker_init_fn_run in Hfin.
    destruct (_maybe_shard_dataset _ _) as [e|parts]; [discriminate|].
    injection Hfin as <-. exists mid_w, parts. split; [exact Hrun|reflexivity].
  - by subst fin.
Qed.

(** ** The claims on the concrete setting *)


(** Ten examples, four tasks and a batch of eight. *)
Lemma create_dataloader_disable_sharding_witness :
  let fin := (Example.ran Example.params).2.1 in
  disable_sharding (Example.built Example.streamer Example.params) = false /\
  num_examples fin = 10%N /\
  batch_size fin = batch_size (Example.built Example.streamer Example.params) /\
  (disable_sharding fin = true <->
   batch_size fin > Z.of_N (num_examples fin) / utils.num_tasks Example.ut) /\
  (~ batch_size fin > Z.of_N (num_examples fin) / utils.num_tasks Example.ut ->
   disable_sharding fin = false).
Proof.
  apply (create_dataloader_disable_sharding Example.rnd Example.lib Example.streamer
           Example.ut Example.get_streaming_batch_size None Example.params
           Example.world Example.world Example.world
           (Example.built Example.streamer Example.params) true 10%N
           [VStr "a.h5"; VStr "b.h5"; VStr "c.h5"]).
  - vm_compute. reflexivity.
  - reflexivity.
  - discriminate.
Defined.



(** Two runs that start from different worlds. *)
Lemma create_dataloader_deterministic_witness :
  let run1 :=
    create_dataloader Example.rnd Example.lib Example.ut None true
      (Example.built Example.streamer Example.params_seed_5, Example.world) in
  let run2 :=
    create_dataloader Example.rnd Example.lib Example.ut None true
      (Example.built Example.streamer Example.params_seed_5, Example.other_world) in
  Example.built Example.streamer Example.params_seed_5
    = Example.built Example.streamer Example.params_seed_5 /\
  files_in_this_task run1.2.1 = files_in_this_task run2.2.1 /\
  run1.1 = run2.1 /\
  (forall dl1 dl2, run1.1 = inr dl1 -> run2.1 = inr dl2 ->
     arg_sampler dl1 = arg_sampler dl2).
Proof.
  apply (create_dataloader_deterministic Example.rnd Example.lib Example.streamer
           Example.ut Example.get_streaming_batch_size None
           Example.params_seed_5 Example.world Example.other_world
           Example.world Example.other_world).
  - vm_compute. reflexivity.
  - vm_compute. reflexivity.
Defined.

(** The statement of C5 fails on the code: with two workers, the second
    one does not get the shard that [_shard_dataset(1, 2)] would give it;
    it gets what [_maybe_shard_dataset(2)] returns, here every file. *)
Lemma worker_init_fn_not_shard_dataset :
  let fin :=
    (_worker_init_fn Example.second_of_two 1
       (Example.sharded, Example.world)).2.1 in
  data_partitions fin = Some (VSeq [VStr "a.h5"; VStr "b.h5"; VStr "c.h5"]) /\
  _shard_dataset Example.sharded
    (settled_worker_id Example.second_of_two)
    (settled_num_workers Example.second_of_two) = inr (VSeq [VStr "b.h5"]) /\
  (forall parts,
     _shard_dataset Example.sharded
       (settled_worker_id Example.second_of_two)
       (settled_num_workers Example.second_of_two) = inr parts ->
     data_partitions fin <> Some parts).
Proof.
  cbv zeta. split; [|split].
  - vm_compute. reflexivity.
  - vm_compute. reflexivity.
  - intros parts Hparts. vm_compute in Hparts. injection Hparts as <-.
    vm_compute. discriminate.
Qed.

(** The second of two workers, and [create_dataloader] with no workers and
    with two. *)
Lemma worker_init_fn_data_partitions_witness :
  _worker_init_fn Example.second_of_two 1 (Example.sharded, Example.world)
  = (inr tt,
     (set_data_partitions (VSeq [VStr "a.h5"; VStr "b.h5"; VStr "c.h5"])
        Example.sharded, Example.world)) /\
  (exists mid_w parts,
     _worker_init_fn None 0
       (with_mutable (num_examples (Example.left_behind Example.params).1)
          (files_in_this_task (Example.left_behind Example.params).1)
          (disable_sharding (Example.left_behind Example.params).1)
          (data_partitions (Example.built Example.streamer Example.params))
          (Example.built Example.streamer Example.params), mid_w)
     = (inr tt, Example.left_behind Example.params) /\
     data_partitions (Example.left_behind Example.params).1 = Some parts) /\
  data_partitions (Example.left_behind Example.params_workers_2).1
  = data_partitions (Example.built Example.streamer Example.params_workers_2).
Proof.
  destruct (worker_init_fn_data_partitions Example.rnd Example.lib Example.ut Example.hdf5)
    as (Hrun & _ & _ & Hloader).
  split; [|split].
  - rewrite Hrun. reflexivity.
  - apply (Hloader None true
             (Example.built Example.streamer Example.params)
             Example.world (Example.made Example.params)
             (Example.left_behind Example.params)).
    vm_compute. reflexivity.
  - apply (Hloader None true
             (Example.built Example.streamer Example.params_workers_2)
             Example.world (Example.made Example.params_workers_2)
             (Example.left_behind Example.params_workers_2)).
    vm_compute. reflexivity.
Defined.

(** [shuffle] left at its default, and [shuffle] off. *)
Lemma create_dataloader_sampler_and_arguments_witness :
  ((truthy (get Example.params "shuffle" (VBool true)) = true ->
    exists g, arg_sampler (Example.made Example.params) = torch.RandomSampler g /\
              torch.device g = torch.cpu) /\
   (truthy (get Example.params "shuffle" (VBool true)) = false ->
    arg_sampler (Example.made Example.params) = torch.SequentialSampler) /\
   (exists bs, Example.params !! "batch_size" = Some bs /\
               arg_batch_size (Example.made Example.params)
                 = Example.get_streaming_batch_size bs) /\
   arg_drop_last (Example.made Example.params)
     = get Example.params "drop_last" (VBool true) /\
   arg_num_workers (Example.made Example.params)
     = get Example.params "num_workers" (VInt 0) /\
   arg_worker_init_fn (Example.made Example.params) = self_worker_init_fn) /\
  arg_sampler (Example.made Example.params_plain) = torch.SequentialSampler.
Proof.
  split.
  - apply (create_dataloader_sampler_and_arguments Example.rnd Example.lib Example.streamer
             Example.ut Example.get_streaming_batch_size None Example.params
             Example.world Example.world Example.world
             (Example.built Example.streamer Example.params) true
             (Example.made Example.params) (Example.left_behind Example.params)).
    + vm_compute. reflexivity.
    + vm_compute. reflexivity.
  - apply (create_dataloader_sampler_and_arguments Example.rnd Example.lib Example.streamer
             Example.ut Example.get_streaming_batch_size None
             Example.params_plain Example.world Example.world Example.world
             (Example.built Example.streamer Example.params_plain) true
             (Example.made Example.params_plain)
             (Example.left_behind Example.params_plain)).
    + vm_compute. reflexivity.
    + vm_compute. reflexivity.
    + reflexivity.
Defined.

(** [normalize_data_method] set to [zero_centered], and the key absent. *)
Lemma init_normalize_transform_witness :
  (exists t,
     normalize_transform (Example.built Example.streamer Example.params) = Some t /\
     forall x,
       call_transform Example.normalize_tensor_transform
         (Example.built Example.streamer Example.params) t x
       = Example.normalize_tensor_transform x (VStr "zero_centered")) /\
  normalize_transform (Example.built Example.streamer Example.params_plain) = None.
Proof.
  split.
  - apply (init_normalize_transform Example.lib Example.streamer Example.ut
             Example.get_streaming_batch_size Example.normalize_tensor_transform
             Example.params Example.world
             (Example.built Example.streamer Example.params) Example.world).
    + vm_compute. reflexivity.
    + vm_compute. reflexivity.
    + reflexivity.
  - apply (init_normalize_transform Example.lib Example.streamer Example.ut
             Example.get_streaming_batch_size Example.normalize_tensor_transform
             Example.params_plain Example.world
             (Example.built Example.streamer Example.params_plain) Example.world).
    + vm_compute. reflexivity.
    + left. vm_compute. reflexivity.
Defined.

(** No workers, and two. *)
Lemma create_dataloader_single_process_arguments_witness :
  (arg_prefetch_factor (Example.made Example.params) = VInt 2 /\
   arg_persistent_workers (Example.made Example.params) = VBool false) /\
  (arg_prefetch_factor (Example.made Example.params_workers_2) = VInt 4 /\
   arg_persistent_workers (Example.made Example.params_workers_2) = VBool true).
Proof.
  split.
  - destruct (create_dataloader_single_process_arguments Example.rnd Example.lib
                Example.streamer Example.ut Example.get_streaming_batch_size
                None Example.params Example.world Example.world Example.world
                (Example.built Example.streamer Example.params) true
                (Example.made Example.params)
                (Example.left_behind Example.params))
      as (Hzero & _ & _).
    + vm_compute. reflexivity.
    + vm_compute. reflexivity.
    + apply Hzero. reflexivity.
  - destruct (create_dataloader_single_process_arguments Example.rnd Example.lib
                Example.streamer Example.ut Example.get_streaming_batch_size
                None Example.params_workers_2
                Example.world Example.world Example.world
                (Example.built Example.streamer Example.params_workers_2) true
                (Example.made Example.params_workers_2)
                (Example.left_behind Example.params_workers_2))
      as (_ & Hmulti & _).
    + vm_compute. reflexivity.
    + vm_compute. reflexivity.
    + apply Hmulti. reflexivity.
Defined.

(** A processor built outside a streamer. *)
Lemma init_before_create_dataloader_witness :
  __len__ (Example.built Example.not_streamer Example.params) = 0%N /\
  files_in_this_task (Example.built Example.not_streamer Example.params) = [] /\
  (cm.is_streamer Example.not_streamer = false ->
   num_tasks (Example.built Example.not_streamer Example.params) = 1 /\
   task_id (Example.built Example.not_streamer Example.params) = 0).
Proof.
  apply (init_before_create_dataloader Example.lib Example.not_streamer Example.ut
           Example.get_streaming_batch_size Example.params Example.world
           (Example.built Example.not_streamer Example.params) Example.world).
  vm_compute. reflexivity.
Defined.

(** [shuffle_seed] 0 on task 2. *)
Lemma zero_shuffle_seed_witness :
  torch_manual_seed_calls
    (__init__ Example.lib Example.streamer Example.ut Example.get_streaming_batch_size
       Example.params_seed_0 Example.world).2
  = torch_manual_seed_calls Example.world /\
  is_None (shuffle_seed (Example.built Example.streamer Example.params_seed_0))
  = false /\
  arg_sampler (Example.made Example.params_seed_0) =
    torch.RandomSampler
      {| torch.device := torch.cpu;
         torch.seed := Some (0 + utils.task_id Example.ut) |}.
Proof.
  destruct (zero_shuffle_seed Example.rnd Example.lib Example.streamer Example.ut
              Example.get_streaming_batch_size None Example.params_seed_0
              Example.world eq_refl) as [Hcalls Hself].
  split; [exact Hcalls|].
  destruct (Hself (Example.built Example.streamer Example.params_seed_0))
    as (_ & Hnone & Hrun).
  { vm_compute. reflexivity. }
  split; [exact Hnone|].
  apply (Hrun true Example.world (Example.made Example.params_seed_0)
           (Example.left_behind Example.params_seed_0)).
  - vm_compute. reflexivity.
  - reflexivity.
  - reflexivity.
Defined.

(** ** More of the code *)

Lemma py_add_int_error v n e : py_add_int v n = inl e -> e = TypeError.
Proof. destruct v; cbn; congruence. Qed.

Lemma py_gt_0_error v e : py_gt_0 v = inl e -> e = TypeError.
Proof. destruct v; cbn; congruence. Qed.

Lemma unpack3_seq l hwc :
  unpack3 (VSeq l) = inr hwc -> l = [hwc.1.1; hwc.1.2; hwc.2].
Proof.
  destruct l as [|a [|b [|c [|? ?]]]]; cbn; try discriminate.
  by intros [= <-].
Qed.

(** The stand-in shuffle of [Example] is a permutation, as
    [random.shuffle] is. *)
Lemma Example_shuffle_permutes st (l : list PyVal) :
  (random.shuffle Example.rnd st l).1 ≡ₚ l.
Proof.
  cbn. unfold rotate.
  rewrite Permutation_app_comm. by rewrite take_drop.
Qed.

Section Coverage.

Context {RngState Tensor : Type}.

Variable rnd : random.module RngState.
Variable lib : Library.
Variable rt : cm.runtime.
Variable ut : utils.helpers.
Variable get_streaming_batch_size : PyVal -> Z.
Variable normalize_tensor_transform : Tensor -> PyVal -> Tensor.
Variable get_worker_info : option torch.WorkerInfo.
Context {sub : Subclass}.

#[local] Abbreviation init :=
  (__init__ (RngState := RngState) lib rt ut get_streaming_batch_size).
#[local] Abbreviation loader :=
  (create_dataloader rnd lib ut get_worker_info).

Ltac init_facts H :=
  apply init_inr in H
    as (u_ & d_ & bs_ & Huwc & Hdir_key & Hbs_key & Happ & Hdata_dir & Hmethod
        & Htransform & Hseed_attr & Hbatch & Hshuffle & Hworkers & Hdrop
        & Hprefetch & Hpersistent & Htasks & Hid & Hlen & Hfiles & Hfresh
        & Hparts).

Ltac run_loader :=
  unfold create_dataloader, _worker_init_fn, py_floordiv; run_M.

(** *** The constructor *)



(** X3.  The three target dimensions are the components of
    [params["image_shape"]], in the order height, width, channels; a list or
    tuple given as [image_shape] has exactly these three elements. *)
Theorem init_image_shape params (w : World RngState) self w' :
  init params w = (inr self, w') ->
  params !! "image_shape" = Some (image_shape self) /\
  unpack3 (image_shape self)
    = inr (tgt_image_height self, tgt_image_width self, channels self) /\
  (forall l, image_shape self = VSeq l ->
     l = [tgt_image_height self; tgt_image_width self; channels self]).
Proof.
  intros H.
  assert (params !! "image_shape" = Some (image_shape self) /\
          unpack3 (image_shape self)
          = inr (tgt_image_height self, tgt_image_width self, channels self))
    as [Hkey Hun].
  { revert H. unfold __init__, getitem. run_M.
    all_cases; intros [= <- <-]; cbn; auto. }
  repeat split; auto.
  intros l E. rewrite E in Hun. by apply unpack3_seq in Hun.
Qed.

(** X4.  [mp_type] is [float32] unless [mixed_precision] is truthy; then it
    is [bfloat16] or [float16] as [params["use_bfloat16"]] is truthy or
    not. *)
Theorem init_mp_type params (w : World RngState) self w' :
  init params w = (inr self, w') ->
  mixed_precision self = get params "mixed_precision" VNone /\
  (truthy (mixed_precision self) = false -> mp_type self = torch.float32) /\
  (truthy (mixed_precision self) = true ->
   exists bf, params !! "use_bfloat16" = Some bf /\
              mp_type self = if truthy bf then torch.bfloat16 else torch.float16).
Proof.
  intros H. revert H. unfold __init__, getitem. run_M.
  all_cases; intros [= <- <-]; cbn.
  all: repeat split; try congruence.
  all: intros _; eexists; split; [done|].
  all: match goal with H : truthy _ = _ |- _ => by rewrite H end.
Qed.

(** X5.  Without a [shuffle_buffer] in [params] the attribute is ten times
    the streaming batch size; a value that is given, [None] included, is
    kept as it is. *)
Theorem init_shuffle_buffer params (w : World RngState) self w' :
  init params w = (inr self, w') ->
  (params !! "shuffle_buffer" = None ->
   shuffle_buffer self = VInt (10 * batch_size self)) /\
  (forall v, params !! "shuffle_buffer" = Some v -> shuffle_buffer self = v).
Proof.
  intros H. revert H. unfold __init__, getitem, get. run_M.
  all_cases; intros [= <- <-]; cbn.
  all: split; [intros E | intros v E]; rewrite E; reflexivity.
Qed.

(** X6.  Whether it returns or raises, [__init__] leaves the state of
    [random] and standard output alone and calls [torch.manual_seed] at
    most once, with [shuffle_seed] and only if that is truthy; when it
    returns with a truthy [shuffle_seed] it has made the call. *)
Theorem init_world params (w : World RngState) :
  let w' := (init params w).2 in
  let seed := get params "shuffle_seed" VNone in
  random_state w' = random_state w /\
  stdout w' = stdout w /\
  (torch_manual_seed_calls w' = torch_manual_seed_calls w \/
   truthy seed = true /\
   torch_manual_seed_calls w' = seed :: torch_manual_seed_calls w) /\
  (forall self, (init params w).1 = inr self ->
     torch_manual_seed_calls w' =
       if truthy seed then seed :: torch_manual_seed_calls w
       else torch_manual_seed_calls w).
Proof.
  unfold __init__, getitem. run_M.
  destruct (truthy (get params "shuffle_seed" VNone)) eqn:Hs.
  all: all_cases; repeat split; auto; try discriminate.
Qed.

(** *** The data loader *)

(** X7.  With [num_tasks()] equal to 0 the call raises
    [ZeroDivisionError] right after [_shard_files]: the files and their
    count are stored, and nothing else has happened, not a line printed. *)
Theorem create_dataloader_zero_tasks b self (w : World RngState) n files :
  _shard_files b self = inr (n, files) ->
  utils.num_tasks ut = 0 ->
  loader b (self, w) = (inl ZeroDivisionError, (set_sharded n files self, w)).
Proof.
  intros Hshard Hnt. run_loader. cbn. rewrite Hshard. cbn. by rewrite Hnt.
Qed.

(** X9.  Whatever [create_dataloader] raises is one of: what
    [_shard_files] raised; [ZeroDivisionError] for [num_tasks()] 0; the
    [TypeError] of [shuffle_seed + task_id()] on the shuffling path; the
    [RuntimeError] of the generator for a seed out of range, there too; what
    the constructor of [RandomSampler] raised; the [TypeError] of
    [num_workers > 0]; what the constructor of the loader raised; or what
    [_maybe_shard_dataset] raised when [num_workers == 0]. *)
Theorem create_dataloader_errors b self (w : World RngState) e fin :
  loader b (self, w) = (inl e, fin) ->
  _shard_files b self = inl e \/
  (e = ZeroDivisionError /\ utils.num_tasks ut = 0) \/
  (e = TypeError /\ truthy (shuffle self) = true /\
   is_None (shuffle_seed self) = false /\
   py_add_int (shuffle_seed self) (utils.task_id ut) = inl TypeError) \/
  (e = RuntimeError "Overflow when unpacking long" /\
   truthy (shuffle self) = true /\
   exists seed,
     (if is_None (shuffle_seed self) then seed = utils.task_id ut
      else py_add_int (shuffle_seed self) (utils.task_id ut) = inr seed) /\
     torch.seed_in_range seed = false) \/
  (truthy (shuffle self) = true /\
   exists data_source generator,
     RandomSampler_raises lib data_source generator = Some e) \/
  (e = TypeError /\ py_gt_0 (num_workers self) = inl TypeError) \/
  (exists dataset dl, DataLoader_raises lib dataset dl = Some e) \/
  (py_eq_0 (num_workers self) = true /\
   exists p, _maybe_shard_dataset p (settled_num_workers get_worker_info) = inl e).
Proof.
  run_loader. unfold settled_num_workers, torch.Generator_manual_seed.
  all_cases; intros [= <- <-].
  all: try solve [left; done].
  all: try solve [right; left; split; [done|]; by apply Z.eqb_eq].
  all: try solve [match goal with
       | H : py_add_int _ _ = inl _ |- _ =>
           pose proof (py_add_int_error _ _ _ H); subst;
           right; right; left; done
       end].
  all: try solve [right; right; right; left; split; [done|]; split; [done|];
                  eexists; split; [|done];
                  repeat match goal with
                    | E : is_None _ = _ |- _ => rewrite E
                    end; done].
  all: try solve [right; right; right; right; left; split; [done|]; eauto].
  all: try solve [match goal with
       | H : py_gt_0 _ = inl _ |- _ =>
           pose proof (py_gt_0_error _ _ H); subst;
           do 5 right; left; done
       end].
  all: try solve [do 6 right; left; eauto].
  all: do 7 right; split; [done|]; eauto.
Qed.

(** However the call ends, only four attributes of [self] can have
    changed, and [torch.manual_seed] was not called. *)
Lemma create_dataloader_frame b self (w : World RngState) :
  let fin := (loader b (self, w)).2 in
  fin.1 = with_mutable (num_examples fin.1) (files_in_this_task fin.1)
            (disable_sharding fin.1) (data_partitions fin.1) self /\
  torch_manual_seed_calls fin.2 = torch_manual_seed_calls w.
Proof.
  run_loader.
  repeat (cbn; try (split; reflexivity); case_innermost).
  all: destruct self; split; reflexivity.
Qed.

(** X10.  However it ends, [create_dataloader] changes no attribute of
    [self] other than [num_examples], [files_in_this_task],
    [disable_sharding] and [data_partitions], and it never calls the
    global [torch.manual_seed]. *)
Theorem create_dataloader_keeps_configuration b self (w : World RngState) :
  let fin := (loader b (self, w)).2 in
  fin.1 = with_mutable (num_examples fin.1) (files_in_this_task fin.1)
            (disable_sharding fin.1) (data_partitions fin.1) self /\
  batch_size fin.1 = batch_size self /\
  shuffle fin.1 = shuffle self /\
  shuffle_seed fin.1 = shuffle_seed self /\
  num_workers fin.1 = num_workers self /\
  data_dir fin.1 = data_dir self /\
  torch_manual_seed_calls fin.2 = torch_manual_seed_calls w.
Proof.
  intros fin. destruct (create_dataloader_frame b self w) as [Hself Hcalls].
  fold fin in Hself, Hcalls.
  split; [exact Hself|]. rewrite Hself. cbn. repeat split; auto.
Qed.

(** X11.  Once [_shard_files] has returned, [len(self)] is the count it
    gave, whether the rest of [create_dataloader] returns or raises. *)
Theorem create_dataloader_len b self (w : World RngState) n files :
  _shard_files b self = inr (n, files) ->
  __len__ (loader b (self, w)).2.1 = n.
Proof.
  intros Hshard. run_loader. cbn. rewrite Hshard.
  repeat (cbn; try reflexivity; case_innermost).
Qed.

(** X12.  [disable_sharding] is never reset: on a processor that has it
    set, a call of [create_dataloader] leaves it set, however the call
    ends and however many examples the task now has. *)
Theorem create_dataloader_flag_sticky b self (w : World RngState) :
  disable_sharding self = true ->
  disable_sharding (loader b (self, w)).2.1 = true.
Proof.
  intros Hflag. run_loader.
  repeat (cbn; try done; case_innermost).
Qed.

(** X13.  As [random.shuffle] permutes its argument, the files left in
    [files_in_this_task] are those [_shard_files] listed, none lost and
    none repeated, however the call ends. *)
Theorem create_dataloader_files_permutation b self (w : World RngState)
    n files :
  (forall st l, (random.shuffle rnd st l).1 ≡ₚ l) ->
  _shard_files b self = inr (n, files) ->
  files_in_this_task (loader b (self, w)).2.1 ≡ₚ files.
Proof.
  intros Hperm Hshard. run_loader. cbn. rewrite Hshard.
  repeat (cbn; try done; case_innermost).
Qed.

(** X14.  Unless [shuffle] is on together with
    [duplicate_act_worker_data] or [disable_sharding], a call that returns
    keeps the files in the order [_shard_files] gave, does not touch the
    state of [random], and seeds no generator: the sampler is a
    [RandomSampler] over a fresh generator, or a [SequentialSampler]. *)
Theorem create_dataloader_unshuffled b self (w : World RngState) dl fin
    n files :
  loader b (self, w) = (inr dl, fin) ->
  _shard_files b self = inr (n, files) ->
  truthy (shuffle self)
    && (truthy (duplicate_act_worker_data self) || disable_sharding fin.1)
    = false ->
  files_in_this_task fin.1 = files /\
  random_state fin.2 = random_state w /\
  arg_sampler dl =
    if truthy (shuffle self)
    then torch.RandomSampler (torch.new_Generator torch.cpu)
    else torch.SequentialSampler.
Proof.
  intros H Hshard Hc. revert H Hc. run_loader. cbn. rewrite Hshard.
  all_cases; intros [= <- <-]; cbn; intros Hc;
    rewrite ?orb_true_r in *; try discriminate; try congruence;
    repeat split; auto.
Qed.

(** X15.  A call that returns has printed the too-small message exactly
    when the size test held, and the FastDataLoader line, after it, exactly
    when [use_fast_dataloader] is truthy, which is also when the loader is
    a [FastDataLoader]. *)
Theorem create_dataloader_stdout b self (w : World RngState) dl fin n files :
  loader b (self, w) = (inr dl, fin) ->
  _shard_files b self = inr (n, files) ->
  stdout fin.2 =
    (if truthy (use_fast_dataloader self) then [using_FastDataLoader] else [])
    ++ (if batch_size self >? Z.of_N n / utils.num_tasks ut
        then [dataset_too_small n (utils.num_tasks ut) (batch_size self)]
        else [])
    ++ stdout w /\
  loader_class dl =
    if truthy (use_fast_dataloader self) then FastDataLoader else DataLoader.
Proof.
  intros H Hshard. revert H. run_loader. cbn. rewrite Hshard.
  all_cases; intros [= <- <-]; cbn; auto.
Qed.

(** X16.  On the shuffling path a [shuffle_seed] that cannot be added to
    an [int] makes the call raise before [random.seed]: the files keep
    their order, the state of [random] is untouched and
    [data_partitions] is not set. *)
Theorem create_dataloader_bad_shuffle_seed b self (w : World RngState)
    n files e :
  _shard_files b self = inr (n, files) ->
  utils.num_tasks ut <> 0 ->
  truthy (shuffle self) = true ->
  truthy (duplicate_act_worker_data self)
    || ((batch_size self >? Z.of_N n / utils.num_tasks ut)
        || disable_sharding self) = true ->
  is_None (shuffle_seed self) = false ->
  py_add_int (shuffle_seed self) (utils.task_id ut) = inl e ->
  let out := loader b (self, w) in
  out.1 = inl e /\
  files_in_this_task out.2.1 = files /\
  random_state out.2.2 = random_state w /\
  data_partitions out.2.1 = data_partitions self.
Proof.
  intros Hshard Hnt Hshuffle Hbranch Hnone Hadd. apply Z.eqb_neq in Hnt.
  run_loader. cbn. rewrite Hshard. cbn. rewrite Hnt.
  destruct (batch_size self >? _); cbn; rewrite Hshuffle; cbn.
  - rewrite orb_true_r. cbn. rewrite Hnone, Hadd. cbn. auto.
  - cbn in Hbranch. rewrite Hbranch. cbn. rewrite Hnone, Hadd. cbn. auto.
Qed.

(** X17.  A [num_workers] given in [params] that does not compare with 0,
    such as an explicit [None], is kept by [__init__] and makes every
    later [create_dataloader] raise. *)
Theorem create_dataloader_num_workers_not_int params (w w' u : World RngState)
    self v b :
  init params w = (inr self, w') ->
  params !! "num_workers" = Some v ->
  py_gt_0 v = inl TypeError ->
  exists e, (loader b (self, u)).1 = inl e.
Proof.
  intros Hinit Hv Hgt.
  destruct (loader b (self, u)) as [[e|dl] fin] eqn:Hrun; [by exists e|].
  exfalso. init_facts Hinit.
  apply create_dataloader_inr in Hrun
    as (? & ? & ? & ? & multi & ? & _ & _ & _ & Hmulti & _).
  unfold get in Hworkers. rewrite Hv in Hworkers. cbn in Hworkers.
  congruence.
Qed.

(** X18.  The transform that [__init__] installs still normalises with
    the configured method after [create_dataloader], however that call
    ended. *)
Theorem normalization_after_create_dataloader params (w w' u : World RngState)
    self method b :
  init params w = (inr self, w') ->
  params !! "normalize_data_method" = Some method ->
  truthy method = true ->
  let fin := (loader b (self, u)).2.1 in
  normalize_transform fin = Some Lambda_apply_normalization /\
  forall x,
    call_transform normalize_tensor_transform fin Lambda_apply_normalization x
    = normalize_tensor_transform x method.
Proof.
  intros Hinit Hm Htrue fin.
  init_facts Hinit.
  destruct (create_dataloader_frame b self u) as [Hself _].
  fold fin in Hself. rewrite Hself. cbn. unfold _apply_normalization. cbn.
  unfold get in Hmethod, Htransform. rewrite Hm in Hmethod, Htransform.
  cbn in Hmethod, Htransform. rewrite Htrue in Htransform.
  split; [done|]. intros x. by rewrite Hmethod.
Qed.

End Coverage.

(** X19.  On the shuffling path, tasks whose [task_id()] differ seed their
    generators differently, whatever [shuffle_seed] is. *)
Theorem create_dataloader_seed_per_task {RngState : Type}
    (rnd : random.module RngState) (lib : Library) (ut1 ut2 : utils.helpers)
    (get_worker_info : option torch.WorkerInfo) (sub : Subclass)
    b self (w1 w2 : World RngState) dl1 dl2 fin1 fin2 :
  create_dataloader rnd lib ut1 get_worker_info b (self, w1) = (inr dl1, fin1) ->
  create_dataloader rnd lib ut2 get_worker_info b (self, w2) = (inr dl2, fin2) ->
  truthy (shuffle self) = true ->
  truthy (duplicate_act_worker_data self) || disable_sharding fin1.1 = true ->
  truthy (duplicate_act_worker_data self) || disable_sharding fin2.1 = true ->
  utils.task_id ut1 <> utils.task_id ut2 ->
  arg_sampler dl1 <> arg_sampler dl2.
Proof.
  intros H1 H2 Hshuffle Hb1 Hb2 Hne.
  destruct (create_dataloader_seeded rnd lib ut1 get_worker_info b self w1 dl1
              fin1 H1 Hshuffle Hb1) as (s1 & ? & ? & _ & Hs1 & _ & Hsam1).
  destruct (create_dataloader_seeded rnd lib ut2 get_worker_info b self w2 dl2
              fin2 H2 Hshuffle Hb2) as (s2 & ? & ? & _ & Hs2 & _ & Hsam2).
  rewrite Hsam1, Hsam2. intros [= E]. subst s2.
  destruct (shuffle_seed self) as [|[]|z| |]; cbn in Hs1, Hs2;
    try discriminate; try congruence.
  all: injection Hs1 as <-; injection Hs2 as E; lia.
Qed.

(** X20.  On a processor of a class that keeps the stubs of the base
    class, [create_dataloader] finds no example and sets
    [disable_sharding] exactly when [batch_size] is positive.  With
    [shuffle] on, a [RandomSampler] that turns down an empty dataset ends
    the call in its [ValueError]; with [shuffle] off and [num_workers == 0],
    once the loader is built the call ends in the [AttributeError] of the
    missing [_maybe_shard_dataset].  With [num_workers == 0] no loader is
    returned in any case. *)
Theorem base_class_create_dataloader {RngState : Type}
    (rnd : random.module RngState) (lib : Library) (rt : cm.runtime)
    (ut : utils.helpers) (get_streaming_batch_size : PyVal -> Z)
    (get_worker_info : option torch.WorkerInfo)
    params (w w' u : World RngState) self b :
  __init__ lib rt ut get_streaming_batch_size params w = (inr self, w') ->
  let out :=
    create_dataloader (sub := base_stubs) rnd lib ut get_worker_info b
      (self, u) in
  __len__ out.2.1 = 0%N /\
  (utils.num_tasks ut <> 0 ->
   disable_sharding out.2.1 = (batch_size self >? 0)) /\
  (py_eq_0 (num_workers self) = true -> exists e, out.1 = inl e) /\
  (utils.num_tasks ut <> 0 ->
   truthy (shuffle self) = true ->
   (is_None (shuffle_seed self) = true \/
    exists seed, py_add_int (shuffle_seed self) (utils.task_id ut) = inr seed) ->
   (forall seed,
      (if is_None (shuffle_seed self) then seed = utils.task_id ut
       else py_add_int (shuffle_seed self) (utils.task_id ut) = inr seed) ->
      torch.seed_in_range seed = true) ->
   (forall data_source generator,
      num_examples data_source = 0%N ->
      RandomSampler_raises lib data_source generator = Some ValueError) ->
   out.1 = inl ValueError) /\
  (utils.num_tasks ut <> 0 ->
   truthy (shuffle self) = false ->
   py_eq_0 (num_workers self) = true ->
   (forall dataset dl,
      arg_batch_size dl = batch_size self ->
      arg_drop_last dl = drop_last self ->
      arg_num_workers dl = num_workers self ->
      arg_sampler dl = torch.SequentialSampler ->
      DataLoader_raises lib dataset dl = None) ->
   out.1 = inl (OtherError "AttributeError")).
Proof.
  intros Hinit out. subst out.
  apply init_inr in Hinit
    as (u_ & d_ & bs_ & _ & _ & _ & _ & _ & _ & _ & _ & _ & _ & _ & _ & _ & _
        & _ & _ & Hlen & Hfiles & Hfresh & _).
  unfold create_dataloader, _worker_init_fn, py_floordiv, __len__,
    torch.Generator_manual_seed. run_M.
  cbn. rewrite Hlen, Hfiles. cbn.
  destruct (utils.num_tasks ut =? 0) eqn:Hnt; cbn.
  { apply Z.eqb_eq in Hnt. repeat split; try done. eauto. }
  apply Z.eqb_neq in Hnt. rewrite (Z.div_0_l _ Hnt).
  split; [|split; [|split; [|split]]].
  - repeat (cbn; try done; case_innermost).
  - intros _.
    repeat (cbn; rewrite ?Hfresh, ?orb_false_r; try done; case_innermost).
  - intros Hzero. pose proof (py_eq_0_not_gt _ Hzero) as Hgt.
    repeat (cbn; rewrite ?Hzero, ?Hgt; try solve [eauto]; case_innermost).
  - intros _ Hshuffle Hseed Hrange Hsampler.
    repeat (cbn; rewrite ?Hshuffle, ?Hsampler by done; try done;
            case_innermost).
    all: try solve [destruct Hseed as [?|[? ?]]; congruence].
    all: try solve [match goal with
           | H : torch.seed_in_range ?z = false |- _ =>
               rewrite (Hrange z) in H; [discriminate|];
               repeat match goal with
                 | E : is_None _ = _ |- _ => rewrite E
                 end; done
           end].
  - intros _ Hshuffle Hzero Hloader.
    pose proof (py_eq_0_not_gt _ Hzero) as Hgt.
    repeat (cbn; rewrite ?Hshuffle, ?Hzero, ?Hgt, ?Hloader by done; try done;
            case_innermost).
Qed.

(** ** More of the code, on the concrete settings *)



(** A 64 by 64 image with one channel. *)
Lemma init_image_shape_witness :
  image_shape (Cases.self_of Example.params) = VSeq [VInt 64; VInt 64; VInt 1] /\
  [VInt 64; VInt 64; VInt 1] =
    [tgt_image_height (Cases.self_of Example.params);
     tgt_image_width (Cases.self_of Example.params);
     channels (Cases.self_of Example.params)].
Proof.
  split; [reflexivity|].
  apply (init_image_shape Example.lib Example.streamer Example.ut
           Example.get_streaming_batch_size Example.params Example.world
           (Cases.self_of Example.params) Example.world).
  - vm_compute. reflexivity.
  - reflexivity.
Defined.

(** Mixed precision without bfloat16. *)
Lemma init_mp_type_witness :
  exists bf,
    Cases.params_fp16 !! "use_bfloat16" = Some bf /\
    mp_type (Cases.self_of Cases.params_fp16) =
      if truthy bf then torch.bfloat16 else torch.float16.
Proof.
  apply (init_mp_type Example.lib Example.streamer Example.ut
           Example.get_streaming_batch_size Cases.params_fp16 Example.world
           (Cases.self_of Cases.params_fp16) Example.world).
  - vm_compute. reflexivity.
  - reflexivity.
Defined.

(** A batch of eight and no [shuffle_buffer]. *)
Lemma init_shuffle_buffer_witness :
  shuffle_buffer (Cases.self_of Example.params)
  = VInt (10 * batch_size (Cases.self_of Example.params)).
Proof.
  destruct (init_shuffle_buffer Example.lib Example.streamer Example.ut
              Example.get_streaming_batch_size Example.params Example.world
              (Cases.self_of Example.params) Example.world) as [Habsent _].
  - vm_compute. reflexivity.
  - apply Habsent. vm_compute. reflexivity.
Defined.

(** [shuffle_seed] 5: one call of [torch.manual_seed], nothing else. *)
Lemma init_world_witness :
  torch_manual_seed_calls
    (__init__ Example.lib Example.streamer Example.ut Example.get_streaming_batch_size
       Example.params_seed_5 Example.other_world).2
  = if truthy (get Example.params_seed_5 "shuffle_seed" VNone)
    then get Example.params_seed_5 "shuffle_seed" VNone
         :: torch_manual_seed_calls Example.other_world
    else torch_manual_seed_calls Example.other_world.
Proof.
  apply (init_world Example.lib Example.streamer Example.ut
           Example.get_streaming_batch_size Example.params_seed_5
           Example.other_world)
    with (self := Cases.self_of Example.params_seed_5).
  vm_compute. reflexivity.
Defined.

(** No task at all. *)
Lemma create_dataloader_zero_tasks_witness :
  Cases.ran_under Cases.ut_no_tasks Example.params
  = (inl ZeroDivisionError,
     (set_sharded 10%N [VStr "a.h5"; VStr "b.h5"; VStr "c.h5"]
        (Cases.self_of Example.params), Example.world)).
Proof.
  apply (create_dataloader_zero_tasks Example.rnd Example.lib Cases.ut_no_tasks None true
           (Cases.self_of Example.params) Example.world).
  - reflexivity.
  - reflexivity.
Defined.

(** [num_workers] given as [None]. *)
Lemma create_dataloader_errors_witness :
  (Cases.ran_under Example.ut Cases.params_none_workers).1 = inl TypeError /\
  py_gt_0 (num_workers (Cases.self_of Cases.params_none_workers))
  = inl TypeError.
Proof.
  assert (H : Cases.ran_under Example.ut Cases.params_none_workers
              = (inl TypeError,
                 (Cases.ran_under Example.ut Cases.params_none_workers).2))
    by (vm_compute; reflexivity).
  split; [by rewrite H|].
  destruct (create_dataloader_errors Example.rnd Example.lib Example.ut None true
              _ _ _ _ H)
    as [E|[[E _]|[(_ & _ & E & _)|[[E _]|[(_ & p & g & E)|[[_ E]|
         [(p & dl & E)|[E _]]]]]]]].
  - vm_compute in E. discriminate E.
  - discriminate E.
  - vm_compute in E. discriminate E.
  - discriminate E.
  - cbn in E. destruct (num_examples p =? 0)%N; discriminate E.
  - exact E.
  - cbn in E. repeat case_match; discriminate E.
  - vm_compute in E. discriminate E.
Defined.

(** Ten examples listed. *)
Lemma create_dataloader_len_witness :
  __len__ (Cases.ran_under Example.ut Example.params).2.1 = 10%N.
Proof.
  apply (create_dataloader_len Example.rnd Example.lib Example.ut None true
           (Cases.self_of Example.params) Example.world 10%N
           [VStr "a.h5"; VStr "b.h5"; VStr "c.h5"]).
  reflexivity.
Defined.

(** A second call, now with a single task and so with examples enough. *)
Lemma create_dataloader_flag_sticky_witness :
  (batch_size (Example.left_behind Example.params).1 >? 10 / 1) = false /\
  disable_sharding
    (create_dataloader Example.rnd Example.lib Cases.ut_single_task None true
       ((Example.left_behind Example.params).1, Example.world)).2.1 = true.
Proof.
  split; [reflexivity|].
  apply (create_dataloader_flag_sticky Example.rnd Example.lib Cases.ut_single_task None
           true (Example.left_behind Example.params).1 Example.world).
  reflexivity.
Defined.

(** The rotated files. *)
Lemma create_dataloader_files_permutation_witness :
  files_in_this_task (Cases.ran_under Example.ut Example.params_seed_5).2.1
  ≡ₚ [VStr "a.h5"; VStr "b.h5"; VStr "c.h5"].
Proof.
  apply (create_dataloader_files_permutation Example.rnd Example.lib Example.ut None true
           (Cases.self_of Example.params_seed_5) Example.world 10%N).
  - exact Example_shuffle_permutes.
  - reflexivity.
Defined.

(** A batch of two: examples enough, no shuffling of files. *)
Lemma create_dataloader_unshuffled_witness :
  files_in_this_task (Cases.ran_under Example.ut Cases.params_batch_2).2.1
  = [VStr "a.h5"; VStr "b.h5"; VStr "c.h5"] /\
  random_state (Cases.ran_under Example.ut Cases.params_batch_2).2.2
  = random_state Example.world /\
  arg_sampler (Cases.made_under Example.ut Cases.params_batch_2) =
    if truthy (shuffle (Cases.self_of Cases.params_batch_2))
    then torch.RandomSampler (torch.new_Generator torch.cpu)
    else torch.SequentialSampler.
Proof.
  apply (create_dataloader_unshuffled Example.rnd Example.lib Example.ut None true
           (Cases.self_of Cases.params_batch_2) Example.world
           (Cases.made_under Example.ut Cases.params_batch_2)
           (Cases.ran_under Example.ut Cases.params_batch_2).2 10%N).
  - vm_compute. reflexivity.
  - reflexivity.
  - vm_compute. reflexivity.
Defined.

(** The too-small message, and no FastDataLoader. *)
Lemma create_dataloader_stdout_witness :
  stdout (Cases.ran_under Example.ut Example.params).2.2
  = [dataset_too_small 10 4 8] /\
  loader_class (Cases.made_under Example.ut Example.params) = DataLoader.
Proof.
  apply (create_dataloader_stdout Example.rnd Example.lib Example.ut None true
           (Cases.self_of Example.params) Example.world
           (Cases.made_under Example.ut Example.params)
           (Cases.ran_under Example.ut Example.params).2 10%N
           [VStr "a.h5"; VStr "b.h5"; VStr "c.h5"]).
  - vm_compute. reflexivity.
  - reflexivity.
Defined.

(** A string for [shuffle_seed]. *)
Lemma create_dataloader_bad_shuffle_seed_witness :
  (Cases.ran_under Example.ut Cases.params_str_seed).1 = inl TypeError /\
  files_in_this_task (Cases.ran_under Example.ut Cases.params_str_seed).2.1
  = [VStr "a.h5"; VStr "b.h5"; VStr "c.h5"] /\
  random_state (Cases.ran_under Example.ut Cases.params_str_seed).2.2
  = random_state Example.world /\
  data_partitions (Cases.ran_under Example.ut Cases.params_str_seed).2.1
  = data_partitions (Cases.self_of Cases.params_str_seed).
Proof.
  apply (create_dataloader_bad_shuffle_seed Example.rnd Example.lib Example.ut None true
           (Cases.self_of Cases.params_str_seed) Example.world 10%N).
  - reflexivity.
  - discriminate.
  - reflexivity.
  - reflexivity.
  - reflexivity.
  - reflexivity.
Defined.

(** [num_workers: None] again, from the constructor on. *)
Lemma create_dataloader_num_workers_not_int_witness :
  exists e,
    (create_dataloader Example.rnd Example.lib Example.ut None true
       (Cases.self_of Cases.params_none_workers, Example.world)).1 = inl e.
Proof.
  apply (create_dataloader_num_workers_not_int Example.rnd Example.lib Example.streamer
           Example.ut Example.get_streaming_batch_size None
           Cases.params_none_workers Example.world Example.world Example.world
           (Cases.self_of Cases.params_none_workers) VNone true).
  - vm_compute. reflexivity.
  - vm_compute. reflexivity.
  - reflexivity.
Defined.

(** [zero_centered], after the loader was made. *)
Lemma normalization_after_create_dataloader_witness :
  normalize_transform (Cases.ran_under Example.ut Example.params).2.1
  = Some Lambda_apply_normalization /\
  forall x,
    call_transform Example.normalize_tensor_transform
      (Cases.ran_under Example.ut Example.params).2.1
      Lambda_apply_normalization x
    = Example.normalize_tensor_transform x (VStr "zero_centered").
Proof.
  apply (normalization_after_create_dataloader Example.rnd Example.lib Example.streamer
           Example.ut Example.get_streaming_batch_size
           Example.normalize_tensor_transform None
           Example.params Example.world Example.world Example.world
           (Cases.self_of Example.params) (VStr "zero_centered") true).
  - vm_compute. reflexivity.
  - vm_compute. reflexivity.
  - reflexivity.
Defined.

(** Tasks 2 and 3. *)
Lemma create_dataloader_seed_per_task_witness :
  arg_sampler (Cases.made_under Example.ut Example.params_seed_5)
  <> arg_sampler (Cases.made_under Cases.ut_task_3 Example.params_seed_5).
Proof.
  apply (create_dataloader_seed_per_task Example.rnd Example.lib Example.ut Cases.ut_task_3
           None Example.hdf5 true (Cases.self_of Example.params_seed_5)
           Example.world Example.world
           (Cases.made_under Example.ut Example.params_seed_5)
           (Cases.made_under Cases.ut_task_3 Example.params_seed_5)
           (Cases.ran_under Example.ut Example.params_seed_5).2
           (Cases.ran_under Cases.ut_task_3 Example.params_seed_5).2).
  - vm_compute. reflexivity.
  - vm_compute. reflexivity.
  - reflexivity.
  - reflexivity.
  - reflexivity.
  - discriminate.
Defined.

(** The base class itself, configured as in [Example], where [shuffle]
    is left to its default: the sampler has nothing to draw from. *)
Lemma base_class_create_dataloader_witness :
  (create_dataloader (sub := base_stubs) Example.rnd Example.lib Example.ut
     None true (Cases.self_of Example.params, Example.world)).1
  = inl ValueError.
Proof.
  destruct (base_class_create_dataloader Example.rnd Example.lib
              Example.streamer Example.ut Example.get_streaming_batch_size
              None Example.params Example.world Example.world Example.world
              (Cases.self_of Example.params) true)
    as (_ & _ & _ & Hsampler & _).
  - vm_compute. reflexivity.
  - apply Hsampler.
    + discriminate.
    + reflexivity.
    + left. reflexivity.
    + intros seed Hseed. vm_compute in Hseed. rewrite Hseed. reflexivity.
    + intros p g Hp. cbn. by rewrite Hp.
Defined.
